(** * WebAR: the AR placement state machine of [src/app.js]

    A shallow embedding of the viewer's top-level script.  The script keeps
    its state in module-level [let] variables and is driven by callbacks of
    the host (three.js' WebXR manager, the animation loop, promise
    resolutions, DOM events).  Here the variables become one record, each
    callback becomes a function on that record, and the host's event
    dispatch becomes a step function over an explicit event type.

    The repository holds three revisions of the script:
      - [Part000] : src/unnamed/part_000
      - [AppJsA]  : src/app.js, first document  (lines 1-191)
      - [AppJsB]  : src/app.js, second document (lines 193-442)
    [render] and [onSelect] are the same text in all three; the session
    handlers and [loadSplatModel] differ and are embedded per revision. *)

From Stdlib Require Import List Bool Arith Lia String PrimFloat.
Import ListNotations.

(** ** Values *)

(** A JavaScript number is an IEEE-754 binary64. *)
Definition number := float.

(** THREE.Vector3 *)
Record Vector3 := mkVector3 { v_x : number; v_y : number; v_z : number }.

(** THREE.Quaternion; [new THREE.Quaternion()] is the identity. *)
Record Quaternion := mkQuaternion
  { q_x : number; q_y : number; q_z : number; q_w : number }.

Definition Quaternion_identity : Quaternion := (mkQuaternion 0 0 0 1)%float.

(** THREE.Matrix4: sixteen numbers, column-major ([elements[0..15]]).  An
    [XRRigidTransform.matrix] is a 16-element Float32Array in the same
    layout, so it is given the same type. *)
Record Matrix4 := mkMatrix4
  { te0 : number; te1 : number; te2 : number; te3 : number;
    te4 : number; te5 : number; te6 : number; te7 : number;
    te8 : number; te9 : number; te10 : number; te11 : number;
    te12 : number; te13 : number; te14 : number; te15 : number }.

Definition Matrix4_identity : Matrix4 :=
  (mkMatrix4 1 0 0 0  0 1 0 0  0 0 1 0  0 0 0 1)%float.

(** [Matrix4.fromArray(array)]: copies the sixteen entries. *)
Definition fromArray (array : Matrix4) : Matrix4 :=
  mkMatrix4 (te0 array) (te1 array) (te2 array) (te3 array)
            (te4 array) (te5 array) (te6 array) (te7 array)
            (te8 array) (te9 array) (te10 array) (te11 array)
            (te12 array) (te13 array) (te14 array) (te15 array).

(** [Matrix4.decompose(position, quaternion, scale)] writes the translation
    column into [position].  The quaternion and scale it also computes go to
    locals that [onSelect] never reads, so only the position is kept. *)
Definition decompose_position (m : Matrix4) : Vector3 :=
  mkVector3 (te12 m) (te13 m) (te14 m).

(** ** Objects *)

(** The splat object ([new LumaSplatsThree({source, ...})]): an Object3D.
    [splat_id] is the object's identity; [dispose_defined] says whether the
    object has a [dispose] member, which [loadSplatModel] tests. *)
Record LumaSplatsThree := mkSplat
  { splat_id : nat;
    source : string;
    position : Vector3;
    quaternion : Quaternion;
    scale : Vector3;
    visible : bool;
    dispose_defined : bool }.

(** The constructor: Object3D defaults (origin, identity rotation, unit
    scale, visible); the class defines [dispose]. *)
Definition LumaSplatsThree_new (id : nat) (src : string) : LumaSplatsThree :=
  mkSplat id src (mkVector3 0 0 0)%float Quaternion_identity
          (mkVector3 1 1 1)%float true true.

Definition splat_set_position (p : Vector3) (s : LumaSplatsThree) :=
  mkSplat (splat_id s) (source s) p (quaternion s) (scale s) (visible s)
          (dispose_defined s).
Definition splat_set_scale (k : Vector3) (s : LumaSplatsThree) :=
  mkSplat (splat_id s) (source s) (position s) (quaternion s) k (visible s)
          (dispose_defined s).
Definition splat_set_visible (b : bool) (s : LumaSplatsThree) :=
  mkSplat (splat_id s) (source s) (position s) (quaternion s) (scale s) b
          (dispose_defined s).

(** The reticle mesh; [matrixAutoUpdate = false], so its pose lives in
    [matrix] alone. *)
Record Reticle := mkReticle { reticle_visible : bool; reticle_matrix : Matrix4 }.

Definition reticle_set_visible (b : bool) (r : Reticle) :=
  mkReticle b (reticle_matrix r).
Definition reticle_set_matrix (m : Matrix4) (r : Reticle) :=
  mkReticle (reticle_visible r) m.

(** OrbitControls, as far as the script touches it. *)
Record OrbitControls := mkControls { enabled : bool }.

(** The children of [scene], by identity. *)
Inductive Object3D :=
| ObjLight
| ObjController
| ObjReticle
| ObjSplat (id : nat).

Definition Object3D_eqb (a b : Object3D) : bool :=
  match a, b with
  | ObjLight, ObjLight => true
  | ObjController, ObjController => true
  | ObjReticle, ObjReticle => true
  | ObjSplat i, ObjSplat j => Nat.eqb i j
  | _, _ => false
  end.

(** [scene.remove(o)]: drops [o] from the children when present. *)
Fixpoint scene_remove (o : Object3D) (children : list Object3D) : list Object3D :=
  match children with
  | [] => []
  | c :: rest => if Object3D_eqb o c then rest else c :: scene_remove o rest
  end.

(** [scene.add(o)]: detaches [o] from its parent, then pushes it. *)
Definition scene_add (o : Object3D) (children : list Object3D) : list Object3D :=
  scene_remove o children ++ [o].

(** The element [#loading] of the page. *)
Record LoadingEl := mkLoadingEl { innerText : string; opacity : string }.

(** ** The WebXR host *)

(** A session object, by identity. *)
Abbreviation SessionId := nat (only parsing).

(** An XRHitTestSource; it belongs to the session that created it. *)
Record XRHitTestSource := mkSource { source_session : SessionId }.

(** One promise chain
    [session.requestReferenceSpace('viewer').then(rs =>
       session.requestHitTestSource({space: rs}).then(src => ...))]. *)
Inductive ChainStage :=
| AwaitReferenceSpace
| AwaitHitTestSource
| Fulfilled
| Rejected.

Record Chain := mkChain { chain_session : SessionId; chain_stage : ChainStage }.

(** [hit.getPose(referenceSpace)]: an XRPose (kept as its
    [transform.matrix]) or null. *)
Record XRHitTestResult := mkHit { getPose : option Matrix4 }.

(** The XRFrame handed to the frame callback. *)
Record XRFrame := mkFrame
  { getHitTestResults : XRHitTestSource -> list XRHitTestResult }.

(** Disposal and construction of splat objects, in program order. *)
Inductive AssetEvent :=
| Constructed (id : nat)
| Disposed (id : nat).

(** ** The program state *)

Record World := mkWorld
  { (* the script's globals *)
    scene : list Object3D;
    reticle : Reticle;
    hitTestSource : option XRHitTestSource;
    hitTestSourceRequested : bool;
    splat : option LumaSplatsThree;
    controls : OrbitControls;
    currentSplatURL : string;
    (* the page *)
    ar_active : bool;
    loadingEl : option LoadingEl;
    (* the host *)
    session : option SessionId;
    chains : list Chain;
    endListeners : list SessionId;
    assetLog : list AssetEvent }.

Definition set_scene v (w : World) := mkWorld v (reticle w) (hitTestSource w) (hitTestSourceRequested w) (splat w) (controls w) (currentSplatURL w) (ar_active w) (loadingEl w) (session w) (chains w) (endListeners w) (assetLog w).
Definition set_reticle v (w : World) := mkWorld (scene w) v (hitTestSource w) (hitTestSourceRequested w) (splat w) (controls w) (currentSplatURL w) (ar_active w) (loadingEl w) (session w) (chains w) (endListeners w) (assetLog w).
Definition set_hitTestSource v (w : World) := mkWorld (scene w) (reticle w) v (hitTestSourceRequested w) (splat w) (controls w) (currentSplatURL w) (ar_active w) (loadingEl w) (session w) (chains w) (endListeners w) (assetLog w).
Definition set_hitTestSourceRequested v (w : World) := mkWorld (scene w) (reticle w) (hitTestSource w) v (splat w) (controls w) (currentSplatURL w) (ar_active w) (loadingEl w) (session w) (chains w) (endListeners w) (assetLog w).
Definition set_splat v (w : World) := mkWorld (scene w) (reticle w) (hitTestSource w) (hitTestSourceRequested w) v (controls w) (currentSplatURL w) (ar_active w) (loadingEl w) (session w) (chains w) (endListeners w) (assetLog w).
Definition set_controls v (w : World) := mkWorld (scene w) (reticle w) (hitTestSource w) (hitTestSourceRequested w) (splat w) v (currentSplatURL w) (ar_active w) (loadingEl w) (session w) (chains w) (endListeners w) (assetLog w).
Definition set_currentSplatURL v (w : World) := mkWorld (scene w) (reticle w) (hitTestSource w) (hitTestSourceRequested w) (splat w) (controls w) v (ar_active w) (loadingEl w) (session w) (chains w) (endListeners w) (assetLog w).
Definition set_ar_active v (w : World) := mkWorld (scene w) (reticle w) (hitTestSource w) (hitTestSourceRequested w) (splat w) (controls w) (currentSplatURL w) v (loadingEl w) (session w) (chains w) (endListeners w) (assetLog w).
Definition set_loadingEl v (w : World) := mkWorld (scene w) (reticle w) (hitTestSource w) (hitTestSourceRequested w) (splat w) (controls w) (currentSplatURL w) (ar_active w) v (session w) (chains w) (endListeners w) (assetLog w).
Definition set_session v (w : World) := mkWorld (scene w) (reticle w) (hitTestSource w) (hitTestSourceRequested w) (splat w) (controls w) (currentSplatURL w) (ar_active w) (loadingEl w) v (chains w) (endListeners w) (assetLog w).
Definition set_chains v (w : World) := mkWorld (scene w) (reticle w) (hitTestSource w) (hitTestSourceRequested w) (splat w) (controls w) (currentSplatURL w) (ar_active w) (loadingEl w) (session w) v (endListeners w) (assetLog w).
Definition set_endListeners v (w : World) := mkWorld (scene w) (reticle w) (hitTestSource w) (hitTestSourceRequested w) (splat w) (controls w) (currentSplatURL w) (ar_active w) (loadingEl w) (session w) (chains w) v (assetLog w).
Definition set_assetLog v (w : World) := mkWorld (scene w) (reticle w) (hitTestSource w) (hitTestSourceRequested w) (splat w) (controls w) (currentSplatURL w) (ar_active w) (loadingEl w) (session w) (chains w) (endListeners w) v.

(** How a callback ends: normally, or by a thrown exception (a TypeError on
    a null receiver).  Either way the writes made so far stay. *)
Inductive Completion :=
| Normal (w : World)
| Throw (w : World).

Definition state_of (c : Completion) : World :=
  match c with Normal w => w | Throw w => w end.

Definition threw (c : Completion) : bool :=
  match c with Normal _ => false | Throw _ => true end.

Definition andThen (c : Completion) (k : World -> Completion) : Completion :=
  match c with Normal w => k w | Throw w => Throw w end.

Notation "c >>= k" := (andThen c k) (at level 50, left associativity).

(** ** Callbacks shared by the three revisions *)

Definition is_constructed (e : AssetEvent) : bool :=
  match e with Constructed _ => true | Disposed _ => false end.

(** The identity given to the next constructed object: the number of
    objects constructed so far. *)
Definition fresh_id (w : World) : nat :=
  List.length (filter is_constructed (assetLog w)).

(** [function render(timestamp, frame)], up to the final
    [renderer.render(scene, camera)], which writes none of the state kept
    here.  [controls.update()] likewise. *)
Definition render (frame : option XRFrame) (w : World) : Completion :=
  match frame with
  | Some fr =>
      (* const session = renderer.xr.getSession(); *)
      (if hitTestSourceRequested w then Normal w
       else
         match session w with
         | None => Throw w            (* session.requestReferenceSpace on null *)
         | Some sid =>
             (* session.requestReferenceSpace('viewer').then(...) *)
             let w := set_chains (chains w ++ [mkChain sid AwaitReferenceSpace]) w in
             (* session.addEventListener('end', ...) *)
             let w := set_endListeners (endListeners w ++ [sid]) w in
             Normal (set_hitTestSourceRequested true w)
         end)
      >>= fun w =>
      match hitTestSource w with
      | Some src =>
          match getHitTestResults fr src with
          | hit :: _ =>
              let w := set_reticle (reticle_set_visible true (reticle w)) w in
              match getPose hit with
              | Some m =>
                  Normal (set_reticle (reticle_set_matrix (fromArray m) (reticle w)) w)
              | None => Throw w       (* getPose(...) is null: .transform throws *)
              end
          | [] => Normal (set_reticle (reticle_set_visible false (reticle w)) w)
          end
      | None => Normal w
      end
  | None => Normal w                  (* controls.update() *)
  end.

(** The promise callback [(source) => { hitTestSource = source; }]. *)
Definition onHitTestSource (source : XRHitTestSource) (w : World) : World :=
  set_hitTestSource (Some source) w.

(** The listener [render] adds to the session's 'end' event. *)
Definition onEnd (w : World) : World :=
  set_hitTestSource None (set_hitTestSourceRequested false w).

(** [function onSelect()] *)
Definition onSelect (w : World) : Completion :=
  if reticle_visible (reticle w) then
    match splat w with
    | Some sp =>
        let sp := splat_set_visible true sp in
        let position := decompose_position (reticle_matrix (reticle w)) in
        Normal (set_splat (Some (splat_set_position position sp)) w)
    | None => Normal w
    end
  else Normal w.

(** ** Revision-specific callbacks *)

Inductive Build := Part000 | AppJsA | AppJsB.

Definition SPLAT_URL : string :=
  "https://assets.lumalabs.ai/m/d557c12c-965f-4f74-a187-436d3771c1b5/659174391852_Fisheye_Initial_cp.spz".

Definition DEFAULT_URL : string := SPLAT_URL.

(** [function loadSplatModel()] of part_000 and of app.js' first document:
    no clean-up of an earlier object. *)
Definition loadSplatModel_A (w : World) : World :=
  let id := fresh_id w in
  let sp := LumaSplatsThree_new id SPLAT_URL in
  let w := set_assetLog (assetLog w ++ [Constructed id]) w in
  let sp := splat_set_scale (mkVector3 1 1 1)%float sp in
  let sp := splat_set_position (mkVector3 0 1 0)%float sp in
  let w := set_splat (Some sp) w in
  set_scene (scene_add (ObjSplat id) (scene w)) w.

(** [function loadSplatModel(url)] of app.js' second document. *)
Definition loadSplatModel_B (url : string) (w : World) : World :=
  (* Clean up existing splat *)
  let w :=
    match splat w with
    | Some old =>
        let w := set_scene (scene_remove (ObjSplat (splat_id old)) (scene w)) w in
        let w := if dispose_defined old
                 then set_assetLog (assetLog w ++ [Disposed (splat_id old)]) w
                 else w in
        set_splat None w
    | None => w
    end in
  let w :=
    match loadingEl w with
    | Some _ => set_loadingEl (Some (mkLoadingEl "Loading Model..." "1")) w
    | None => w
    end in
  let id := fresh_id w in
  let sp := LumaSplatsThree_new id url in
  let w := set_assetLog (assetLog w ++ [Constructed id]) w in
  let sp := splat_set_scale (mkVector3 1 1 1)%float sp in
  let sp := splat_set_position (mkVector3 0 1 0)%float sp in
  let w := set_splat (Some sp) w in
  let w := set_scene (scene_add (ObjSplat id) (scene w)) w in
  set_currentSplatURL url w.

(** [splat.onLoad]: hides the loading element. *)
Definition onLoad (w : World) : World :=
  match loadingEl w with
  | Some el => set_loadingEl (Some (mkLoadingEl (innerText el) "0")) w
  | None => w
  end.

(** [splat.onError], set by app.js' second document only. *)
Definition onError (w : World) : World :=
  match loadingEl w with
  | Some el => set_loadingEl (Some (mkLoadingEl "Error loading model" (opacity el))) w
  | None => w
  end.

(** The 'sessionstart' listener of part_000. *)
Definition sessionstart_000 (w : World) : Completion :=
  let w := set_ar_active true w in
  let w := set_controls (mkControls false) w in
  match splat w with
  | Some sp =>
      let sp := splat_set_scale (mkVector3 1 1 1)%float sp in
      Normal (set_splat (Some (splat_set_visible false sp)) w)
  | None => Throw w
  end.

(** The 'sessionstart' listener of app.js (both documents). *)
Definition sessionstart_app (w : World) : Completion :=
  let w := set_ar_active true w in
  let w := set_controls (mkControls false) w in
  match splat w with
  | Some sp => Normal (set_splat (Some (splat_set_visible false sp)) w)
  | None => Throw w
  end.

(** The 'sessionend' listener of part_000: no scale reset. *)
Definition sessionend_000 (w : World) : Completion :=
  let w := set_ar_active false w in
  let w := set_controls (mkControls true) w in
  match splat w with
  | Some sp =>
      let sp := splat_set_visible true sp in
      let sp := splat_set_position (mkVector3 0 1 0)%float sp in
      let w := set_splat (Some sp) w in
      let w := set_hitTestSource None w in
      Normal (set_hitTestSourceRequested false w)
  | None => Throw w
  end.

(** The 'sessionend' listener of app.js (both documents). *)
Definition sessionend_app (w : World) : Completion :=
  let w := set_ar_active false w in
  let w := set_controls (mkControls true) w in
  match splat w with
  | Some sp =>
      let sp := splat_set_visible true sp in
      let sp := splat_set_position (mkVector3 0 1 0)%float sp in
      let sp := splat_set_scale (mkVector3 1 1 1)%float sp in
      let w := set_splat (Some sp) w in
      let w := set_hitTestSource None w in
      Normal (set_hitTestSourceRequested false w)
  | None => Throw w
  end.

Definition sessionstart (b : Build) : World -> Completion :=
  match b with Part000 => sessionstart_000 | _ => sessionstart_app end.

Definition sessionend (b : Build) : World -> Completion :=
  match b with Part000 => sessionend_000 | _ => sessionend_app end.

Definition loadSplatModel (b : Build) (url : string) : World -> World :=
  match b with AppJsB => loadSplatModel_B url | _ => loadSplatModel_A end.

(** [setupWebXR], after the listeners are registered: the controller and
    the hidden reticle enter the scene. *)
Definition setupWebXR (w : World) : World :=
  let w := set_scene (scene_add ObjController (scene w)) w in
  let w := set_reticle (mkReticle false Matrix4_identity) w in
  set_scene (scene_add ObjReticle (scene w)) w.

(** The globals as declared, with the scene, light and controls that [init]
    creates before it loads the model. *)
Definition boot (page : option LoadingEl) : World :=
  mkWorld [ObjLight] (mkReticle false Matrix4_identity) None false None
          (mkControls true) DEFAULT_URL false page None [] [] [].

(** [function init()] *)
Definition init (b : Build) (page : option LoadingEl) : World :=
  setupWebXR (loadSplatModel b DEFAULT_URL (boot page)).

(** ** The host's event dispatch *)

Inductive Event :=
| EvSessionStart (sid : SessionId)          (* renderer.xr 'sessionstart' *)
| EvSessionEnd                              (* the live session's 'end' *)
| EvFrame (frame : option XRFrame)          (* the animation loop *)
| EvSelect                                  (* controller 'select' *)
| EvReferenceSpace (i : nat) (ok : bool)    (* chain i: first promise settles *)
| EvHitTestSource (i : nat) (ok : bool)     (* chain i: second promise settles *)
| EvLoadUrl (url : string)                  (* menu: load from URL or file *)
| EvSplatLoad                               (* splat.onLoad *)
| EvSplatError.                             (* splat.onError *)

Fixpoint set_stage (i : nat) (st : ChainStage) (cs : list Chain) : list Chain :=
  match cs, i with
  | [], _ => []
  | c :: rest, O => mkChain (chain_session c) st :: rest
  | c :: rest, S j => c :: set_stage j st rest
  end.

(** The first promise of chain [i] settles: on success its callback calls
    [session.requestHitTestSource]. *)
Definition referenceSpaceSettled (i : nat) (ok : bool) (w : World) : World :=
  match nth_error (chains w) i with
  | Some c =>
      match chain_stage c with
      | AwaitReferenceSpace =>
          set_chains (set_stage i (if ok then AwaitHitTestSource else Rejected)
                                (chains w)) w
      | _ => w
      end
  | None => w
  end.

(** The second promise of chain [i] settles: on success the host hands a
    source of the chain's own session to [onHitTestSource]. *)
Definition hitTestSourceSettled (i : nat) (ok : bool) (w : World) : World :=
  match nth_error (chains w) i with
  | Some c =>
      match chain_stage c with
      | AwaitHitTestSource =>
          if ok then
            onHitTestSource (mkSource (chain_session c))
                            (set_chains (set_stage i Fulfilled (chains w)) w)
          else set_chains (set_stage i Rejected (chains w)) w
      | _ => w
      end
  | None => w
  end.

(** Session [sid] ends: the manager forgets the session and dispatches
    'sessionend'; then every 'end' listener that [render] registered on
    the session runs.  An exception in one listener does not stop the
    others. *)
Definition session_end (b : Build) (sid : SessionId) (w : World) : World :=
  let w := set_session None w in
  let w := state_of (sessionend b w) in
  fold_left (fun w _ => onEnd w) (filter (Nat.eqb sid) (endListeners w)) w.

(** The menu exists in app.js' second document only; an empty URL is not
    loaded. *)
Definition loadFromMenu (b : Build) (url : string) (w : World) : World :=
  match b with
  | AppJsB => if String.eqb url "" then w else loadSplatModel_B url w
  | _ => w
  end.

Definition step (b : Build) (e : Event) (w : World) : World :=
  match e with
  | EvSessionStart sid => state_of (sessionstart b (set_session (Some sid) w))
  | EvSessionEnd =>
      match session w with
      | Some sid => session_end b sid w
      | None => w
      end
  | EvFrame frame => state_of (render frame w)
  | EvSelect => state_of (onSelect w)
  | EvReferenceSpace i ok => referenceSpaceSettled i ok w
  | EvHitTestSource i ok => hitTestSourceSettled i ok w
  | EvLoadUrl url => loadFromMenu b url w
  | EvSplatLoad => onLoad w
  | EvSplatError => match b with AppJsB => onError w | _ => w end
  end.

Definition run (b : Build) (es : list Event) (w : World) : World :=
  fold_left (fun w e => step b e w) es w.

(** What the host can deliver in a state: a session starts only when none
    is live; frames carry XR data exactly while a session is live; select
    and session end need a live session. *)
Definition offered (w : World) (e : Event) : bool :=
  match e with
  | EvSessionStart _ => match session w with None => true | Some _ => false end
  | EvSessionEnd => match session w with None => false | Some _ => true end
  | EvFrame (Some _) => match session w with None => false | Some _ => true end
  | EvFrame None => match session w with None => true | Some _ => false end
  | EvSelect => match session w with None => false | Some _ => true end
  | _ => true
  end.

Inductive reachable (b : Build) : World -> Prop :=
| reach_init : forall page, reachable b (init b page)
| reach_step : forall w e,
    reachable b w -> offered w e = true -> reachable b (step b e w).

(** Events that neither start nor end a session. *)
Definition in_session (e : Event) : bool :=
  match e with
  | EvSessionStart _ | EvSessionEnd => false
  | _ => true
  end.

Definition is_xr_frame (e : Event) : bool :=
  match e with EvFrame (Some _) => true | _ => false end.

(** The hit-test requests issued so far, by session and in program order:
    one chain per [session.requestReferenceSpace] call. *)
Definition requests_issued (w : World) : list SessionId :=
  map chain_session (chains w).

(** ** The menu (app.js, second document: [setupUI]) *)

(** The page around the script: the program state and the inline
    [style.display] of [#menu-overlay]. *)
Record Page := mkPage { page_world : World; overlay_display : string }.

(** The four listeners of [setupUI].  [MenuLoadUrl] carries the value of
    [#url-input]; [MenuFile] carries nothing when the selection is empty
    ([files[0]] undefined) and otherwise the object URL that
    [URL.createObjectURL] mints for [files[0]]. *)
Inductive MenuEvent :=
| MenuOpen
| MenuClose
| MenuLoadUrl (value : string)
| MenuFile (objectUrl : option string).

Section Menu.

(** [String.prototype.trim], a built-in of the host. *)
Variable trim : string -> string.

Definition menu_step (e : MenuEvent) (p : Page) : Page :=
  match e with
  | MenuOpen => mkPage (page_world p) "flex"
  | MenuClose => mkPage (page_world p) "none"
  | MenuLoadUrl value =>
      let url := trim value in
      if String.eqb url "" then p
      else mkPage (loadSplatModel_B url (page_world p)) "none"
  | MenuFile (Some objectUrl) =>
      mkPage (loadSplatModel_B objectUrl (page_world p)) "none"
  | MenuFile None => p
  end.

End Menu.

(** ** Observations and invariants *)

(** The defaults the session-end listener writes. *)
Definition default_position : Vector3 := (mkVector3 0 1 0)%float.
Definition default_scale : Vector3 := (mkVector3 1 1 1)%float.

(** The guard [if (hitTestSource)] of [render] fails. *)
Definition source_is_null (w : World) : bool :=
  match hitTestSource w with None => true | Some _ => false end.

(** Whenever the flag is set, a session is live and [render] has put an
    'end' listener on it. *)
Definition flag_guarded (w : World) : Prop :=
  hitTestSourceRequested w = true ->
  exists sid, session w = Some sid /\ In sid (endListeners w).

(** Every event of the list is one the host can deliver where it occurs. *)
Fixpoint admissible (b : Build) (es : list Event) (w : World) : bool :=
  match es with
  | [] => true
  | e :: es' => offered w e && admissible b es' (step b e w)
  end.

(** The states a run passes through, one per event. *)
Fixpoint states (b : Build) (es : list Event) (w : World) : list World :=
  match es with
  | [] => []
  | e :: es' => step b e w :: states b es' (step b e w)
  end.

(** The splat objects among the scene's children. *)
Definition splats_in (children : list Object3D) : list nat :=
  flat_map (fun o => match o with ObjSplat id => [id] | _ => [] end) children.

(** The objects constructed, and those disposed, in log order. *)
Definition constructed_ids (log : list AssetEvent) : list nat :=
  flat_map (fun e => match e with Constructed id => [id] | _ => [] end) log.

Definition disposed_ids (log : list AssetEvent) : list nat :=
  flat_map (fun e => match e with Disposed id => [id] | _ => [] end) log.

(** The log of [k] replacements: object 0 is constructed; then, for each
    j < k, object j is disposed and object j+1 constructed. *)
Definition expected_log (k : nat) : list AssetEvent :=
  Constructed 0 :: flat_map (fun j => [Disposed j; Constructed (S j)]) (seq 0 k).

(** A menu event that reaches [loadSplatModel]. *)
Definition is_menu_load (e : Event) : bool :=
  match e with
  | EvLoadUrl url => negb (String.eqb url "")
  | _ => false
  end.

Definition loads_in (es : list Event) : nat :=
  List.length (filter is_menu_load es).

Fixpoint remove_first (j : nat) (l : list nat) : list nat :=
  match l with
  | [] => []
  | x :: r => if Nat.eqb j x then r else x :: remove_first j r
  end.

(** After [k] replacements: the current splat is object [k] and can be
    disposed, it is the only splat in the scene, and the log is the
    alternating one. *)
Definition asset_inv (k : nat) (w : World) : Prop :=
  (exists sp, splat w = Some sp /\ splat_id sp = k /\ dispose_defined sp = true) /\
  splats_in (scene w) = [k] /\
  assetLog w = expected_log k.

(** A session is live. *)
Definition live (w : World) : bool :=
  match session w with Some _ => true | None => false end.

Definition is_session_start (e : Event) : bool :=
  match e with EvSessionStart _ => true | _ => false end.

Definition starts_in (es : list Event) : nat :=
  List.length (filter is_session_start es).

(** The requests issued, plus one while a live session has not requested
    yet. *)
Definition request_budget (w : World) : nat :=
  List.length (requests_issued w) +
  (if live w && negb (hitTestSourceRequested w) then 1 else 0).

(** Frames, promise settlements and the splat's load notifications. *)
Definition is_passive (e : Event) : bool :=
  match e with
  | EvFrame _ | EvReferenceSpace _ _ | EvHitTestSource _ _
  | EvSplatLoad | EvSplatError => true
  | _ => false
  end.

(** The scene's children other than splats. *)
Definition fixtures (children : list Object3D) : list Object3D :=
  filter (fun o => match o with ObjSplat _ => false | _ => true end) children.

(** The revisions without a menu. *)
Definition has_menu (b : Build) : bool :=
  match b with AppJsB => true | _ => false end.

(** What the hit-test machinery and the mode consist of. *)
Definition ar_state (w : World) :=
  (hitTestSource w, hitTestSourceRequested w, session w, reticle w,
   controls w, chains w, endListeners w, ar_active w).

(** ** Sample states and runs *)

(** A pose whose translation is (1, 0, 2). *)
Definition pose_1_0_2 : Matrix4 :=
  (mkMatrix4 1 0 0 0  0 1 0 0  0 0 1 0  1 0 2 1)%float.

(** A frame that answers every hit-test query with [hits]. *)
Definition frame_with (hits : list XRHitTestResult) : XRFrame :=
  mkFrame (fun _ => hits).

Definition hit_frame : XRFrame := frame_with [mkHit (Some pose_1_0_2)].
Definition no_hit_frame : XRFrame := frame_with [].

(** A reticle shown at pose [m], a request already made, no source yet. *)
Definition pending_world (m : Matrix4) : World :=
  mkWorld [ObjLight; ObjSplat 0; ObjController; ObjReticle]
          (mkReticle true m) None true
          (Some (splat_set_position (mkVector3 0 1 0)%float
                   (LumaSplatsThree_new 0 DEFAULT_URL)))
          (mkControls false) DEFAULT_URL true None (Some 0)
          [mkChain 0 AwaitReferenceSpace] [0] [Constructed 0].

(** A live session whose reticle sits at (1, 0, 2); the splat is still
    hidden. *)
Definition placing_world : World :=
  mkWorld [ObjLight; ObjSplat 0; ObjController; ObjReticle]
          (mkReticle true pose_1_0_2) (Some (mkSource 0)) true
          (Some (splat_set_visible false
                   (splat_set_position (mkVector3 0 1 0)%float
                      (LumaSplatsThree_new 0 DEFAULT_URL))))
          (mkControls false) DEFAULT_URL true None (Some 0)
          [mkChain 0 Fulfilled] [0] [Constructed 0].

(** Session 0: the source resolves and a surface is hit ... *)
Definition session_until_hit : list Event :=
  [EvSessionStart 0; EvFrame (Some hit_frame); EvReferenceSpace 0 true;
   EvHitTestSource 0 true; EvFrame (Some hit_frame)].

(** ... and then the session ends. *)
Definition session_with_hit : list Event :=
  session_until_hit ++ [EvSessionEnd].

(** The state in which session 0 is about to end. *)
Definition before_session_end : World :=
  run AppJsB session_until_hit (init AppJsB None).

(** Session 0 ends while its chain still waits for the hit-test source;
    session 1 starts. *)
Definition session_ends_early : list Event :=
  [EvSessionStart 0; EvFrame (Some no_hit_frame); EvReferenceSpace 0 true;
   EvSessionEnd; EvSessionStart 1].

(** Session 1, started after [session_with_hit]; its chain never
    resolves. *)
Definition session_without_source : list Event :=
  [EvSessionStart 1; EvFrame (Some hit_frame); EvFrame (Some no_hit_frame);
   EvSelect; EvFrame (Some hit_frame)].

(** A page without the loading element, and one with it. *)
Definition shown_loading : LoadingEl := mkLoadingEl "Loading..." "1".

(** A trim for the samples: it knows one blank value. *)
Definition trim_blank (s : string) : string :=
  if String.eqb s "  " then "" else s.

(** ** Tactics *)

Ltac break_match :=
  repeat match goal with
         | |- context [match ?x with _ => _ end] => destruct x eqn:?
         | |- context [if ?x then _ else _] => destruct x eqn:?
         end.

Ltac unfold_handlers :=
  unfold render, onSelect, onHitTestSource, onEnd, onLoad, onError,
    referenceSpaceSettled, hitTestSourceSettled, loadFromMenu,
    loadSplatModel_A, loadSplatModel_B,
    sessionstart, sessionstart_000, sessionstart_app,
    sessionend, sessionend_000, sessionend_app, andThen.

Ltac quiet_event G :=
  let H := fresh "H" in
  intro H;
  match type of H with
  | hitTestSourceRequested (step ?b ?e ?w) = true =>
      let Hf := fresh "Hf" in
      let Hs := fresh "Hs" in
      let Hl := fresh "Hl" in
      assert (hitTestSourceRequested w = true /\
              session (step b e w) = session w /\
              endListeners (step b e w) = endListeners w)
        as (Hf & Hs & Hl)
        by (revert H; destruct b; simpl; unfold_handlers; break_match;
            simpl; auto);
      rewrite Hs, Hl; apply G, Hf
  end.

Ltac keep_asset :=
  split; [reflexivity | split; [reflexivity | ]];
  let sp := fresh "sp" in
  let Hsp := fresh "Hsp" in
  intros sp Hsp;
  first [ discriminate Hsp
        | injection Hsp as <-; eexists; split; [reflexivity | split; reflexivity]
        | exists sp; split; [exact Hsp | split; reflexivity] ].

Ltac world_eq :=
  cbv [set_scene set_reticle set_hitTestSource set_hitTestSourceRequested
       set_splat set_controls set_currentSplatURL set_ar_active set_loadingEl
       set_session set_chains set_endListeners set_assetLog
       scene reticle hitTestSource hitTestSourceRequested splat controls
       currentSplatURL ar_active loadingEl session chains endListeners
       assetLog];
  reflexivity.

(** * Properties *)

(** ** The frame callback and the reticle *)

(** The request block of [render] never writes the stored source or the
    reticle. *)
Lemma render_null_source_state : forall fr w,
  hitTestSource w = None ->
  hitTestSource (state_of (render (Some fr) w)) = None /\
  reticle (state_of (render (Some fr) w)) = reticle w.
Proof.
  intros fr w Hsrc. unfold render.
  destruct (hitTestSourceRequested w); simpl.
  - rewrite Hsrc. simpl. auto.
  - destruct (session w) as [sid|]; simpl.
    + rewrite Hsrc. simpl. auto.
    + auto.
Qed.

(** C10: on a frame whose stored hit-test source is null, [render] writes
    neither [reticle.visible] nor [reticle.matrix]: the reticle after the
    frame is the reticle before it (a visible reticle stays visible).  The
    same holds for a frame without XR data. *)
Theorem render_without_source_keeps_reticle :
  forall (frame : option XRFrame) (w : World),
    hitTestSource w = None ->
    reticle (state_of (render frame w)) = reticle w.
Proof.
  intros [fr|] w Hsrc.
  - apply render_null_source_state; assumption.
  - reflexivity.
Qed.

Lemma render_without_source_keeps_reticle_witness :
  reticle (state_of (render (Some (frame_with [mkHit (Some Matrix4_identity)]))
                            (pending_world pose_1_0_2)))
  = mkReticle true pose_1_0_2.
Proof.
  apply (render_without_source_keeps_reticle
           (Some (frame_with [mkHit (Some Matrix4_identity)]))
           (pending_world pose_1_0_2)).
  reflexivity.
Defined.

(** ** Placement *)

(** C4: with the reticle visible and a splat loaded, [onSelect] returns
    normally, makes the splat visible and sets its position to the
    translation of the reticle's matrix; the splat's quaternion (and its
    scale, identity and source) and everything else in the state stay as
    they were. *)
Theorem onSelect_places_splat_at_reticle :
  forall (w : World) (sp : LumaSplatsThree),
    reticle_visible (reticle w) = true ->
    splat w = Some sp ->
    onSelect w =
      Normal (set_splat
                (Some (mkSplat (splat_id sp) (source sp)
                         (decompose_position (reticle_matrix (reticle w)))
                         (quaternion sp) (scale sp) true (dispose_defined sp)))
                w).
Proof.
  intros w sp Hvis Hsp. unfold onSelect. rewrite Hvis, Hsp. reflexivity.
Qed.

Lemma onSelect_places_splat_at_reticle_witness :
  option_map (fun sp => (visible sp, position sp, quaternion sp))
             (splat (state_of (onSelect placing_world)))
  = Some (true, mkVector3 1 0 2, Quaternion_identity)%float.
Proof.
  rewrite (onSelect_places_splat_at_reticle placing_world
             (splat_set_visible false
                (splat_set_position (mkVector3 0 1 0)%float
                   (LumaSplatsThree_new 0 DEFAULT_URL)))
             eq_refl eq_refl).
  reflexivity.
Defined.

(** C5: with the reticle hidden, or with no splat loaded, [onSelect]
    returns normally and leaves the whole state as it was. *)
Theorem onSelect_noop_when_invalid :
  forall (w : World),
    reticle_visible (reticle w) = false \/ splat w = None ->
    onSelect w = Normal w.
Proof.
  intros w [Hvis | Hsp]; unfold onSelect.
  - rewrite Hvis. reflexivity.
  - rewrite Hsp. destruct (reticle_visible (reticle w)); reflexivity.
Qed.

Lemma onSelect_noop_when_invalid_witness :
  onSelect (set_reticle (mkReticle false pose_1_0_2) placing_world)
  = Normal (set_reticle (mkReticle false pose_1_0_2) placing_world)
  /\ onSelect (set_splat None placing_world) = Normal (set_splat None placing_world).
Proof.
  split.
  - apply (onSelect_noop_when_invalid
             (set_reticle (mkReticle false pose_1_0_2) placing_world)).
    left. reflexivity.
  - apply (onSelect_noop_when_invalid (set_splat None placing_world)).
    right. reflexivity.
Defined.

(** ** Session end *)

Lemma fold_onEnd : forall (l : list SessionId) (w : World),
  fold_left (fun w _ => onEnd w) l w =
  match l with [] => w | _ :: _ => onEnd w end.
Proof.
  induction l as [|a l IH]; intro w; simpl.
  - reflexivity.
  - rewrite IH. destruct l; reflexivity.
Qed.

Lemma sessionend_idempotent : forall (b : Build) (w : World),
  sessionend b (state_of (sessionend b w)) = sessionend b w.
Proof.
  intros b w. destruct w as [sc re hs rq [sp|] co url ar lo se ch el lg];
    destruct b; reflexivity.
Qed.

Lemma endListeners_sessionend : forall (b : Build) (w : World),
  endListeners (state_of (sessionend b w)) = endListeners w.
Proof.
  intros b w. destruct b; simpl; unfold sessionend_000, sessionend_app;
    simpl; destruct (splat w); reflexivity.
Qed.

(** C9: a second session-end notification changes nothing.  This holds for
    the 'sessionend' listener alone and for the whole dispatch of a
    session's end (the listener followed by the 'end' listeners that
    [render] registered), in every revision and from every state: controls,
    splat, stored source, requested flag, reticle and the rest of the state
    are equal after one notification and after two. *)
Theorem session_end_twice_is_once :
  forall (b : Build) (sid : SessionId) (w : World),
    state_of (sessionend b (state_of (sessionend b w))) = state_of (sessionend b w)
    /\ session_end b sid (session_end b sid w) = session_end b sid w.
Proof.
  intros b sid w. split.
  - rewrite sessionend_idempotent. reflexivity.
  - unfold session_end. rewrite !fold_onEnd.
    rewrite !endListeners_sessionend. simpl endListeners.
    destruct (filter (Nat.eqb sid) (endListeners w)) as [|x l] eqn:El.
    + rewrite endListeners_sessionend. simpl endListeners. rewrite El.
      destruct w as [sc re hs rq [sp|] co url ar lo se ch el lg];
        destruct b; reflexivity.
    + simpl endListeners. rewrite endListeners_sessionend.
      simpl endListeners. rewrite El.
      destruct w as [sc re hs rq [sp|] co url ar lo se ch el lg];
        destruct b; reflexivity.
Qed.

(** What the 'sessionend' listener writes when a splat is loaded: the
    stored source, the flag, the controls, and the splat's visibility and
    position; app.js also writes the scale, part_000 does not.  It does not
    write the reticle. *)
Lemma sessionend_writes :
  forall (b : Build) (w : World) (sp : LumaSplatsThree),
    splat w = Some sp ->
    threw (sessionend b w) = false /\
    hitTestSource (state_of (sessionend b w)) = None /\
    hitTestSourceRequested (state_of (sessionend b w)) = false /\
    enabled (controls (state_of (sessionend b w))) = true /\
    splat (state_of (sessionend b w)) =
      Some (mkSplat (splat_id sp) (source sp) default_position (quaternion sp)
              (match b with Part000 => scale sp | _ => default_scale end)
              true (dispose_defined sp)) /\
    reticle (state_of (sessionend b w)) = reticle w.
Proof.
  intros b w sp Hsp.
  destruct b; simpl; unfold sessionend_000, sessionend_app; simpl;
    rewrite Hsp; simpl; repeat split; reflexivity.
Qed.

(** The 'end' listeners that follow write the source and the flag only. *)
Lemma session_end_after_listener : forall b sid w,
  hitTestSource (state_of (sessionend b (set_session None w))) = None ->
  hitTestSourceRequested (state_of (sessionend b (set_session None w))) = false ->
  session_end b sid w = state_of (sessionend b (set_session None w)).
Proof.
  intros b sid w Hsrc Hreq. unfold session_end. rewrite fold_onEnd.
  destruct (filter _ _); [reflexivity|].
  unfold onEnd.
  destruct (state_of (sessionend b (set_session None w)))
    as [sc re hs rq sp co url ar lo se ch el lg].
  simpl in *. subst. reflexivity.
Qed.

(** ** One request per session *)

Lemma set_stage_sessions : forall cs i st,
  map chain_session (set_stage i st cs) = map chain_session cs.
Proof.
  induction cs as [|c cs IH]; intros [|i] st; simpl; try rewrite IH; auto.
Qed.

(** An XR frame in a live session: afterwards the flag is set, and a chain
    was added exactly when the flag was clear. *)
Lemma xr_frame_requests : forall fr w sid,
  session w = Some sid ->
  session (state_of (render (Some fr) w)) = Some sid /\
  hitTestSourceRequested (state_of (render (Some fr) w)) = true /\
  requests_issued (state_of (render (Some fr) w)) =
    requests_issued w ++ (if hitTestSourceRequested w then [] else [sid]).
Proof.
  intros fr w sid Hs. unfold requests_issued, render, andThen.
  rewrite Hs.
  destruct (hitTestSourceRequested w) eqn:Hf; simpl;
    break_match; simpl; rewrite ?map_app, ?app_nil_r; simpl; auto.
Qed.

(** The other events inside a session leave the session, the flag and the
    requests alone. *)
Lemma quiet_step : forall b e w,
  in_session e = true -> is_xr_frame e = false ->
  session (step b e w) = session w /\
  hitTestSourceRequested (step b e w) = hitTestSourceRequested w /\
  requests_issued (step b e w) = requests_issued w.
Proof.
  intros b e w Hin Hfr. unfold requests_issued.
  destruct e as [sid| |[fr|]| |i ok|i ok|url| |]; try discriminate;
    destruct b; simpl; unfold_handlers; break_match; simpl;
    rewrite ?set_stage_sessions; auto.
Qed.

Lemma run_cons : forall b e es w, run b (e :: es) w = run b es (step b e w).
Proof. reflexivity. Qed.

Lemma run_in_session : forall b es w sid,
  session w = Some sid ->
  forallb in_session es = true ->
  session (run b es w) = Some sid /\
  hitTestSourceRequested (run b es w) =
    (hitTestSourceRequested w || existsb is_xr_frame es) /\
  requests_issued (run b es w) =
    requests_issued w ++
    (if hitTestSourceRequested w then []
     else if existsb is_xr_frame es then [sid] else []).
Proof.
  intros b es. induction es as [|e es IH]; intros w sid Hs Hin.
  - simpl. rewrite orb_false_r.
    destruct (hitTestSourceRequested w); rewrite app_nil_r; auto.
  - simpl in Hin. apply andb_prop in Hin as [He Hes]. rewrite run_cons.
    destruct (is_xr_frame e) eqn:Hfr.
    + destruct e as [| |[fr|]| | | | | |]; try discriminate.
      destruct (xr_frame_requests fr w sid Hs) as (Hs' & Hf' & Hn').
      change (step b (EvFrame (Some fr)) w) with (state_of (render (Some fr) w)).
      destruct (IH _ sid Hs' Hes) as (IHs & IHf & IHn).
      rewrite IHs, IHf, IHn, Hf', Hn'. simpl existsb.
      rewrite orb_true_r. repeat split.
      destruct (hitTestSourceRequested w); rewrite ?app_nil_r; reflexivity.
    + destruct (quiet_step b e w He Hfr) as (Hs' & Hf' & Hn').
      rewrite <- Hs' in Hs. destruct (IH _ sid Hs Hes) as (IHs & IHf & IHn).
      rewrite IHs, IHf, IHn, Hf', Hn'. simpl existsb. rewrite Hfr. simpl.
      auto.
Qed.

Lemma flag_guarded_init : forall b page, flag_guarded (init b page).
Proof. intros b page H. destruct b, page; cbv in H; discriminate. Qed.

Lemma session_end_clears_flag : forall b sid w,
  flag_guarded w -> session w = Some sid ->
  hitTestSourceRequested (session_end b sid w) = false /\
  session (session_end b sid w) = None.
Proof.
  intros b sid w G Hs. unfold session_end. rewrite fold_onEnd.
  rewrite endListeners_sessionend. simpl endListeners.
  destruct (filter (Nat.eqb sid) (endListeners w)) as [|x l] eqn:El.
  - destruct (hitTestSourceRequested w) eqn:Hf.
    + destruct (G Hf) as (sid' & Hs' & Hin).
      rewrite Hs in Hs'. injection Hs' as <-.
      assert (In sid (filter (Nat.eqb sid) (endListeners w))) as Hin'
        by (apply filter_In; split; [assumption | apply Nat.eqb_refl]).
      rewrite El in Hin'. destruct Hin'.
    + destruct b; simpl; unfold_handlers; break_match; simpl; auto.
  - destruct b; simpl; unfold_handlers; break_match; simpl; auto.
Qed.

Lemma flag_guarded_step : forall b e w,
  flag_guarded w -> offered w e = true -> flag_guarded (step b e w).
Proof.
  intros b e w G Hoff.
  destruct e as [sid| |[fr|]| |i ok|i ok|url| |].
  - (* session start: offered only when none is live, so the flag is clear *)
    simpl in Hoff. destruct (session w) eqn:Hs; [discriminate|].
    assert (hitTestSourceRequested w = false) as Hf.
    { destruct (hitTestSourceRequested w) eqn:Hf; [|reflexivity].
      destruct (G Hf) as (s & Hs' & _). congruence. }
    intro H. exfalso. revert H.
    destruct b; simpl; unfold_handlers; break_match; simpl; congruence.
  - simpl in Hoff. simpl. destruct (session w) as [sid|] eqn:Hs; [|discriminate].
    intro H. destruct (session_end_clears_flag b sid w G Hs) as (Hf & _).
    congruence.
  - simpl in Hoff. destruct (session w) as [sid|] eqn:Hs; [|discriminate].
    intro H. exists sid. simpl. unfold render, andThen. rewrite Hs.
    destruct (hitTestSourceRequested w) eqn:Hf.
    + destruct (G Hf) as (s & Hs' & Hin). rewrite Hs in Hs'. injection Hs' as <-.
      simpl. break_match; simpl; auto.
    + simpl. break_match; simpl; split; auto; apply in_or_app; right; left; reflexivity.
  - exact G.
  - quiet_event G.
  - quiet_event G.
  - quiet_event G.
  - quiet_event G.
  - quiet_event G.
  - quiet_event G.
Qed.

Lemma reachable_flag_guarded : forall b w, reachable b w -> flag_guarded w.
Proof.
  intros b w R. induction R as [page | w e R IH Hoff].
  - apply flag_guarded_init.
  - apply flag_guarded_step; assumption.
Qed.

(** No session is live: the flag is clear. *)
Lemma reachable_idle_flag_clear : forall b w,
  reachable b w -> session w = None -> hitTestSourceRequested w = false.
Proof.
  intros b w R Hs. destruct (hitTestSourceRequested w) eqn:Hf; [|reflexivity].
  destruct (reachable_flag_guarded b w R Hf) as (sid & Hs' & _). congruence.
Qed.

Lemma sessionstart_step : forall b sid w,
  session (step b (EvSessionStart sid) w) = Some sid /\
  hitTestSourceRequested (step b (EvSessionStart sid) w) = hitTestSourceRequested w /\
  requests_issued (step b (EvSessionStart sid) w) = requests_issued w.
Proof.
  intros b sid w. unfold requests_issued.
  destruct b; simpl; unfold_handlers; break_match; simpl; auto.
Qed.

(** C2: from any reachable state, start a session and deliver any events
    of that session (frames, selects, promise settlements, loads; no
    session end) with at least one XR frame among them: exactly one
    request chain is issued, it is issued on this session, and the flag is
    set afterwards.  The number of frames does not matter. *)
Theorem one_request_per_session :
  forall (b : Build) (w : World) (sid : SessionId) (es : list Event),
    reachable b w ->
    offered w (EvSessionStart sid) = true ->
    forallb in_session es = true ->
    existsb is_xr_frame es = true ->
    requests_issued (run b es (step b (EvSessionStart sid) w))
      = requests_issued w ++ [sid] /\
    hitTestSourceRequested (run b es (step b (EvSessionStart sid) w)) = true.
Proof.
  intros b w sid es R Hoff Hin Hfr.
  assert (hitTestSourceRequested w = false) as Hclear.
  { apply (reachable_idle_flag_clear b w R).
    simpl in Hoff. destruct (session w); [discriminate | reflexivity]. }
  destruct (sessionstart_step b sid w) as (Hs & Hf & Hn).
  destruct (run_in_session b es _ sid Hs Hin) as (_ & Hf' & Hn').
  rewrite Hf', Hn', Hf, Hn, Hclear, Hfr. auto.
Qed.

Lemma reachable_run : forall b es w,
  reachable b w -> admissible b es w = true -> reachable b (run b es w).
Proof.
  intros b es. induction es as [|e es IH]; intros w R A; simpl in *.
  - exact R.
  - apply andb_prop in A as [Ho A]. apply IH; [|exact A].
    apply reach_step; assumption.
Qed.

Lemma one_request_per_session_witness :
  requests_issued
    (run AppJsB
       [EvFrame (Some no_hit_frame); EvFrame (Some hit_frame); EvSelect;
        EvReferenceSpace 1 true; EvFrame (Some hit_frame);
        EvHitTestSource 1 true; EvFrame (Some hit_frame); EvSelect;
        EvFrame (Some no_hit_frame)]
       (step AppJsB (EvSessionStart 1)
          (run AppJsB session_with_hit (init AppJsB None))))
    = [0; 1].
Proof.
  apply (one_request_per_session AppJsB
           (run AppJsB session_with_hit (init AppJsB None)) 1
           [EvFrame (Some no_hit_frame); EvFrame (Some hit_frame); EvSelect;
            EvReferenceSpace 1 true; EvFrame (Some hit_frame);
            EvHitTestSource 1 true; EvFrame (Some hit_frame); EvSelect;
            EvFrame (Some no_hit_frame)]).
  - apply reachable_run; [apply reach_init | reflexivity].
  - reflexivity.
  - reflexivity.
  - reflexivity.
Defined.

(** ** Late resolution of a request chain *)

(** C1 (amended): when the hit-test-source promise of a chain resolves, the
    callback stores the chain's source whatever session is live, also none
    or a later one; it leaves the requested flag, the live session, the
    reticle and the splat as they were. *)
Theorem resolution_stores_source_unconditionally :
  forall (w : World) (i : nat) (c : Chain),
    nth_error (chains w) i = Some c ->
    chain_stage c = AwaitHitTestSource ->
    hitTestSource (hitTestSourceSettled i true w)
      = Some (mkSource (chain_session c)) /\
    hitTestSourceRequested (hitTestSourceSettled i true w)
      = hitTestSourceRequested w /\
    session (hitTestSourceSettled i true w) = session w /\
    reticle (hitTestSourceSettled i true w) = reticle w /\
    splat (hitTestSourceSettled i true w) = splat w.
Proof.
  intros w i c Hc Hst. unfold hitTestSourceSettled.
  rewrite Hc, Hst. simpl. repeat split.
Qed.

Lemma resolution_stores_source_unconditionally_witness :
  session (run AppJsB session_ends_early (init AppJsB None)) = Some 1 /\
  hitTestSource
    (hitTestSourceSettled 0 true
       (run AppJsB session_ends_early (init AppJsB None)))
    = Some (mkSource 0).
Proof.
  split; [reflexivity|].
  apply (resolution_stores_source_unconditionally
           (run AppJsB session_ends_early (init AppJsB None)) 0
           (mkChain 0 AwaitHitTestSource)); reflexivity.
Defined.

(** C1, as stated, fails: session 0 ends with its chain pending and
    session 1 starts; session 1 has requested nothing and stores no source.
    The chain of session 0 then resolves, and its source is stored while
    session 1 is live.  The same happens when no session is live. *)
Lemma stale_source_is_stored :
  admissible AppJsB (session_ends_early ++ [EvHitTestSource 0 true])
             (init AppJsB None) = true /\
  session (run AppJsB session_ends_early (init AppJsB None)) = Some 1 /\
  hitTestSourceRequested (run AppJsB session_ends_early (init AppJsB None))
    = false /\
  hitTestSource (run AppJsB session_ends_early (init AppJsB None)) = None /\
  hitTestSource
    (run AppJsB (session_ends_early ++ [EvHitTestSource 0 true])
         (init AppJsB None))
    = Some (mkSource 0) /\
  session
    (run AppJsB
         [EvSessionStart 0; EvFrame (Some no_hit_frame);
          EvReferenceSpace 0 true; EvSessionEnd; EvHitTestSource 0 true]
         (init AppJsB None)) = None /\
  hitTestSource
    (run AppJsB
         [EvSessionStart 0; EvFrame (Some no_hit_frame);
          EvReferenceSpace 0 true; EvSessionEnd; EvHitTestSource 0 true]
         (init AppJsB None)) = Some (mkSource 0).
Proof. repeat split. Qed.

(** ** The reticle across sessions *)

(** C3, as stated, fails on the reticle: session 0 ends while the reticle
    is visible, and it is still visible after the session-end
    notification, in every revision. *)
Lemma sessionend_leaves_reticle_visible :
  admissible AppJsB session_with_hit (init AppJsB None) = true /\
  session (run AppJsB session_with_hit (init AppJsB None)) = None /\
  reticle_visible (reticle (run AppJsB session_with_hit (init AppJsB None)))
    = true /\
  reticle_visible (reticle (run AppJsA session_with_hit (init AppJsA None)))
    = true /\
  reticle_visible (reticle (run Part000 session_with_hit (init Part000 None)))
    = true /\
  reticle_visible (reticle (state_of (sessionend AppJsB before_session_end)))
    = true.
Proof. repeat split. Qed.

(** No event writes the reticle while the stored source is null. *)
Lemma step_without_source_keeps_reticle : forall b e w,
  hitTestSource w = None -> reticle (step b e w) = reticle w.
Proof.
  intros b e w Hsrc.
  destruct e as [sid| |frame| |i ok|i ok|url| |].
  - destruct b; simpl; unfold_handlers; break_match; reflexivity.
  - simpl. destruct (session w) as [sid|]; [|reflexivity].
    unfold session_end. rewrite fold_onEnd.
    destruct b; simpl; unfold_handlers; break_match; reflexivity.
  - simpl. destruct frame as [fr|]; [|reflexivity].
    apply render_null_source_state. exact Hsrc.
  - simpl. unfold_handlers. break_match; reflexivity.
  - simpl. unfold_handlers. break_match; reflexivity.
  - simpl. unfold_handlers. break_match; reflexivity.
  - destruct b; simpl; unfold_handlers; break_match; reflexivity.
  - simpl. unfold_handlers. break_match; reflexivity.
  - destruct b; simpl; unfold_handlers; break_match; reflexivity.
Qed.

(** C6 (amended): along any run in which the stored source is null in
    every state, the reticle is never written: in every state of the run
    its visibility and matrix are those of the starting state.  So the
    reticle is hidden throughout such a session exactly when it was hidden
    as the session started. *)
Theorem reticle_frozen_without_source :
  forall (b : Build) (es : list Event) (w : World),
    source_is_null w = true ->
    forallb source_is_null (states b es w) = true ->
    Forall (fun w' => reticle w' = reticle w) (states b es w) /\
    reticle (run b es w) = reticle w.
Proof.
  intros b es. induction es as [|e es IH]; intros w H0 Hall; simpl in *.
  - split; [constructor | reflexivity].
  - apply andb_prop in Hall as [H1 Hall].
    assert (reticle (step b e w) = reticle w) as Hstep.
    { apply step_without_source_keeps_reticle.
      unfold source_is_null in H0. destruct (hitTestSource w); congruence. }
    destruct (IH (step b e w) H1 Hall) as [IHs IHr].
    split.
    + constructor; [exact Hstep|].
      rewrite <- Hstep. exact IHs.
    + change (run b (e :: es) w) with (run b es (step b e w)).
      rewrite IHr. exact Hstep.
Qed.

Lemma reticle_frozen_without_source_witness :
  reticle (run AppJsB session_without_source
               (run AppJsB session_with_hit (init AppJsB None)))
  = mkReticle true pose_1_0_2.
Proof.
  apply (reticle_frozen_without_source AppJsB session_without_source
           (run AppJsB session_with_hit (init AppJsB None)));
    reflexivity.
Defined.

(** C6, as stated, fails: session 1 follows a session that ended with the
    reticle visible.  No source resolves during session 1 (the stored
    source is null in each of its states), yet the reticle is visible in
    each of them. *)
Lemma reticle_visible_without_source :
  admissible AppJsB (session_with_hit ++ session_without_source)
             (init AppJsB None) = true /\
  map hitTestSource
      (states AppJsB session_without_source
              (run AppJsB session_with_hit (init AppJsB None)))
    = [None; None; None; None; None] /\
  map (fun w => reticle_visible (reticle w))
      (states AppJsB session_without_source
              (run AppJsB session_with_hit (init AppJsB None)))
    = [true; true; true; true; true].
Proof. repeat split. Qed.

(** ** Loading a model *)

Lemma fresh_id_after_dispose : forall w id,
  fresh_id (set_assetLog (assetLog w ++ [Disposed id]) w) = fresh_id w.
Proof.
  intros w id. unfold fresh_id. simpl. rewrite filter_app. simpl.
  rewrite app_nil_r. reflexivity.
Qed.

Lemma loadSplatModel_B_splat : forall url w,
  splat (loadSplatModel_B url w) =
  Some (mkSplat (fresh_id w) url default_position Quaternion_identity
                default_scale true true).
Proof.
  intros url w. unfold loadSplatModel_B.
  destruct (splat w) as [old|]; [destruct (dispose_defined old)|];
    cbn; destruct (loadingEl w); cbn; unfold fresh_id; cbn;
    rewrite ?filter_app; cbn; rewrite ?app_nil_r; reflexivity.
Qed.

Lemma sessionstart_hides_splat : forall b sid w sp,
  splat w = Some sp ->
  option_map visible (splat (step b (EvSessionStart sid) w)) = Some false.
Proof.
  intros b sid w sp Hsp.
  destruct b; simpl; unfold sessionstart_000, sessionstart_app; simpl;
    rewrite Hsp; reflexivity.
Qed.

(** C8 (amended): [loadSplatModel] leaves a new splat at position (0,1,0)
    with scale (1,1,1) and visible, whatever the state it is called in: it
    does not consult the session, the controls or the page's AR marker,
    and it does not change them.  Only a later 'sessionstart' hides the
    splat. *)
Theorem loadSplatModel_defaults_in_any_mode :
  forall (b : Build) (url : string) (sid : SessionId) (w : World),
    splat (loadSplatModel b url w) =
      Some (mkSplat (fresh_id w)
              (match b with AppJsB => url | _ => SPLAT_URL end)
              default_position Quaternion_identity default_scale true true) /\
    session (loadSplatModel b url w) = session w /\
    controls (loadSplatModel b url w) = controls w /\
    ar_active (loadSplatModel b url w) = ar_active w /\
    option_map visible
      (splat (step b (EvSessionStart sid) (loadSplatModel b url w)))
      = Some false.
Proof.
  intros b url sid w.
  assert (splat (loadSplatModel b url w) =
          Some (mkSplat (fresh_id w)
                  (match b with AppJsB => url | _ => SPLAT_URL end)
                  default_position Quaternion_identity default_scale true true))
    as Hsp.
  { destruct b; try reflexivity. apply loadSplatModel_B_splat. }
  split; [exact Hsp|].
  split; [|split; [|split]].
  - destruct b; simpl; unfold_handlers; break_match; reflexivity.
  - destruct b; simpl; unfold_handlers; break_match; reflexivity.
  - destruct b; simpl; unfold_handlers; break_match; reflexivity.
  - apply (sessionstart_hides_splat b sid _ _ Hsp).
Qed.

(** C8, as stated, fails on the AR override: a session is live (controls
    off, page marked AR), the menu loads a model, and the new splat is
    visible. *)
Lemma load_during_session_is_visible :
  admissible AppJsB [EvSessionStart 0; EvLoadUrl "blob:model"]
             (init AppJsB None) = true /\
  session (run AppJsB [EvSessionStart 0; EvLoadUrl "blob:model"]
               (init AppJsB None)) = Some 0 /\
  ar_active (run AppJsB [EvSessionStart 0; EvLoadUrl "blob:model"]
                 (init AppJsB None)) = true /\
  enabled (controls (run AppJsB [EvSessionStart 0; EvLoadUrl "blob:model"]
                         (init AppJsB None))) = false /\
  option_map visible
    (splat (run AppJsB [EvSessionStart 0; EvLoadUrl "blob:model"]
                (init AppJsB None))) = Some true.
Proof. repeat split. Qed.

(** ** A single live splat (app.js, second document) *)

Lemma splats_in_app : forall l1 l2,
  splats_in (l1 ++ l2) = splats_in l1 ++ splats_in l2.
Proof. intros. unfold splats_in. apply flat_map_app. Qed.

Lemma splats_in_scene_remove : forall l j,
  splats_in (scene_remove (ObjSplat j) l) = remove_first j (splats_in l).
Proof.
  induction l as [|o l IH]; intro j; simpl.
  - reflexivity.
  - destruct o as [| | |i]; simpl; try (rewrite IH; reflexivity).
    destruct (Nat.eqb j i); simpl; [reflexivity | rewrite IH; reflexivity].
Qed.

Lemma expected_log_S : forall k,
  expected_log (S k) = expected_log k ++ [Disposed k; Constructed (S k)].
Proof.
  intro k. unfold expected_log. rewrite seq_S, flat_map_app. simpl.
  reflexivity.
Qed.

Lemma expected_log_constructed : forall k,
  constructed_ids (expected_log k) = seq 0 (S k).
Proof.
  induction k as [|k IH].
  - reflexivity.
  - rewrite expected_log_S. unfold constructed_ids in *.
    rewrite flat_map_app, IH. simpl flat_map.
    change (0 :: seq 1 k) with (seq 0 (S k)).
    rewrite (seq_S (S k) 0). reflexivity.
Qed.

Lemma expected_log_disposed : forall k,
  disposed_ids (expected_log k) = seq 0 k.
Proof.
  induction k as [|k IH].
  - reflexivity.
  - rewrite expected_log_S. unfold disposed_ids in *.
    rewrite flat_map_app, IH. simpl flat_map.
    rewrite (seq_S k 0). reflexivity.
Qed.

Lemma expected_log_fresh : forall k,
  List.length (filter is_constructed (expected_log k)) = S k.
Proof.
  induction k as [|k IH].
  - reflexivity.
  - rewrite expected_log_S, filter_app, length_app, IH. simpl. lia.
Qed.

(** Replacing a splat: the old object leaves the scene and is disposed,
    and only then is the new one constructed and added. *)
Lemma loadSplatModel_B_replaces : forall url w old,
  splat w = Some old -> dispose_defined old = true ->
  scene (loadSplatModel_B url w) =
    scene_add (ObjSplat (fresh_id w))
              (scene_remove (ObjSplat (splat_id old)) (scene w)) /\
  assetLog (loadSplatModel_B url w) =
    assetLog w ++ [Disposed (splat_id old); Constructed (fresh_id w)].
Proof.
  intros url w old Hsp Hd. unfold loadSplatModel_B. rewrite Hsp, Hd.
  cbn. destruct (loadingEl w); cbn; unfold fresh_id; cbn;
    rewrite filter_app; cbn; rewrite app_nil_r, <- app_assoc; auto.
Qed.

Lemma load_asset_inv : forall url w k,
  asset_inv k w -> asset_inv (S k) (loadSplatModel_B url w).
Proof.
  intros url w k ((sp & Hsp & Hid & Hd) & Hsc & Hlog).
  assert (fresh_id w = S k) as Hfresh
    by (unfold fresh_id; rewrite Hlog; apply expected_log_fresh).
  destruct (loadSplatModel_B_replaces url w sp Hsp Hd) as (Hscene & Hlog').
  split; [|split].
  - rewrite loadSplatModel_B_splat, Hfresh. eexists. split; [reflexivity|].
    split; reflexivity.
  - rewrite Hscene, Hfresh, Hid. unfold scene_add.
    rewrite splats_in_app, !splats_in_scene_remove, Hsc. simpl.
    rewrite Nat.eqb_refl. reflexivity.
  - rewrite Hlog', Hlog, Hfresh, Hid. symmetry. apply expected_log_S.
Qed.

Lemma render_keeps_asset : forall frame w,
  scene (state_of (render frame w)) = scene w /\
  assetLog (state_of (render frame w)) = assetLog w /\
  splat (state_of (render frame w)) = splat w.
Proof.
  intros [fr|] w; [|auto].
  unfold render, andThen.
  destruct (hitTestSourceRequested w); [|destruct (session w)]; simpl;
    break_match; simpl; auto.
Qed.

(** Every other event keeps the scene and the log, and changes at most the
    transform and visibility of the splat. *)
Lemma other_step_keeps_asset : forall e w,
  is_menu_load e = false ->
  scene (step AppJsB e w) = scene w /\
  assetLog (step AppJsB e w) = assetLog w /\
  (forall sp, splat w = Some sp ->
     exists sp', splat (step AppJsB e w) = Some sp' /\
                 splat_id sp' = splat_id sp /\
                 dispose_defined sp' = dispose_defined sp).
Proof.
  intros e w Hload.
  destruct e as [sid| |frame| |i ok|i ok|url| |].
  - simpl. unfold_handlers. cbn. destruct (splat w) as [sp0|]; cbn; keep_asset.
  - simpl. destruct (session w) as [sid|].
    + unfold session_end. rewrite fold_onEnd.
      unfold_handlers. cbn. destruct (splat w) as [sp0|]; cbn;
        destruct (filter (Nat.eqb sid) (endListeners w)); cbn; keep_asset.
    + keep_asset.
  - simpl. destruct (render_keeps_asset frame w) as (-> & -> & ->).
    keep_asset.
  - simpl. unfold_handlers.
    destruct (reticle_visible (reticle w)); [destruct (splat w) as [sp0|]|];
      cbn; keep_asset.
  - simpl. unfold_handlers; break_match; cbn; keep_asset.
  - simpl. unfold_handlers; break_match; cbn; keep_asset.
  - simpl in *. destruct (String.eqb url ""); [|discriminate]. keep_asset.
  - simpl. unfold_handlers; break_match; cbn; keep_asset.
  - simpl. unfold_handlers; break_match; cbn; keep_asset.
Qed.

Lemma step_asset_inv : forall e w k,
  asset_inv k w ->
  asset_inv (if is_menu_load e then S k else k) (step AppJsB e w).
Proof.
  intros e w k Hinv. destruct (is_menu_load e) eqn:Hload.
  - destruct e; try discriminate. simpl in *.
    destruct (String.eqb url ""); [discriminate|].
    apply load_asset_inv. exact Hinv.
  - destruct Hinv as ((sp & Hsp & Hid & Hd) & Hsc & Hlog).
    destruct (other_step_keeps_asset e w Hload) as (Hscene & Hlog' & Hsplat).
    destruct (Hsplat sp Hsp) as (sp' & Hsp' & Hid' & Hd').
    split; [|split].
    + exists sp'. rewrite Hid', Hd'. auto.
    + rewrite Hscene. exact Hsc.
    + rewrite Hlog'. exact Hlog.
Qed.

Lemma run_asset_inv : forall es w k,
  asset_inv k w -> asset_inv (k + loads_in es) (run AppJsB es w).
Proof.
  induction es as [|e es IH]; intros w k Hinv.
  - simpl. rewrite Nat.add_0_r. exact Hinv.
  - rewrite run_cons.
    pose proof (step_asset_inv e w k Hinv) as Hstep.
    replace (k + loads_in (e :: es))
      with ((if is_menu_load e then S k else k) + loads_in es).
    + apply IH. exact Hstep.
    + unfold loads_in. simpl. destruct (is_menu_load e); simpl; lia.
Qed.

Lemma init_asset_inv : forall page, asset_inv 0 (init AppJsB page).
Proof.
  intro page. split; [|split].
  - destruct page; eexists; (split; [reflexivity|split; reflexivity]).
  - destruct page; reflexivity.
  - destruct page; reflexivity.
Qed.

(** C7: start the second document and deliver any events.  If [k] of them
    are menu loads, then the scene holds exactly one splat object, the
    current one (object [k]); the objects constructed are 0..k, the objects
    disposed are its predecessors 0..k-1, and the log alternates: each
    predecessor was disposed before its replacement was constructed. *)
Theorem single_live_splat :
  forall (page : option LoadingEl) (es : list Event),
    option_map splat_id (splat (run AppJsB es (init AppJsB page)))
      = Some (loads_in es) /\
    splats_in (scene (run AppJsB es (init AppJsB page))) = [loads_in es] /\
    assetLog (run AppJsB es (init AppJsB page)) = expected_log (loads_in es) /\
    constructed_ids (assetLog (run AppJsB es (init AppJsB page)))
      = seq 0 (S (loads_in es)) /\
    disposed_ids (assetLog (run AppJsB es (init AppJsB page)))
      = seq 0 (loads_in es).
Proof.
  intros page es.
  destruct (run_asset_inv es (init AppJsB page) 0 (init_asset_inv page))
    as ((sp & Hsp & Hid & Hd) & Hsc & Hlog).
  simpl in Hid, Hsc, Hlog.
  split; [rewrite Hsp, <- Hid; reflexivity|].
  split; [exact Hsc|].
  split; [exact Hlog|].
  rewrite Hlog. split.
  - apply expected_log_constructed.
  - apply expected_log_disposed.
Qed.

(** ** The splat's scale *)

(** Only [loadSplatModel], part_000's 'sessionstart' and app.js'
    'sessionend' write the scale, and each writes (1,1,1): the scale that
    part_000's 'sessionend' leaves alone is (1,1,1) in every reachable
    state. *)
Lemma step_unit_scale : forall b e w,
  (forall sp, splat w = Some sp -> scale sp = default_scale) ->
  forall sp, splat (step b e w) = Some sp -> scale sp = default_scale.
Proof.
  intros b e w U sp'.
  destruct e as [sid| |frame| |i ok|i ok|url| |].
  - destruct b; simpl; unfold_handlers; cbn;
      destruct (splat w) as [sp|] eqn:Hsp; cbn; rewrite ?Hsp;
      intros H; try discriminate; injection H as <-; simpl;
      try reflexivity; apply (U sp eq_refl).
  - simpl. destruct (session w) as [sid|]; [|apply U].
    unfold session_end. rewrite fold_onEnd.
    destruct b; unfold_handlers; cbn;
      destruct (splat w) as [sp|] eqn:Hsp; cbn;
      destruct (filter (Nat.eqb sid) (endListeners w)); cbn; rewrite ?Hsp;
      intros H; try discriminate; injection H as <-; simpl;
      try reflexivity; apply (U sp eq_refl).
  - simpl. destruct (render_keeps_asset frame w) as (_ & _ & ->). apply U.
  - simpl. unfold_handlers.
    destruct (reticle_visible (reticle w)); [|apply U].
    destruct (splat w) as [sp|] eqn:Hsp; cbn; rewrite ?Hsp;
      intros H; try discriminate; injection H as <-; simpl; apply (U sp eq_refl).
  - simpl. unfold_handlers. break_match; cbn; apply U.
  - simpl. unfold_handlers. break_match; cbn; apply U.
  - destruct b; simpl; try apply U.
    destruct (String.eqb url ""); [apply U|].
    rewrite loadSplatModel_B_splat. intros [= <-]. reflexivity.
  - simpl. unfold_handlers. break_match; cbn; apply U.
  - destruct b; simpl; unfold_handlers; break_match; cbn; apply U.
Qed.

Lemma reachable_unit_scale : forall b w,
  reachable b w ->
  forall sp, splat w = Some sp -> scale sp = default_scale.
Proof.
  intros b w R. induction R as [page | w e R IH Hoff].
  - intros sp. destruct b, page; cbn; intros [= <-]; reflexivity.
  - apply step_unit_scale. exact IH.
Qed.

Lemma step_splat_loaded : forall b e w,
  splat w <> None -> splat (step b e w) <> None.
Proof.
  intros b e w L.
  destruct e as [sid| |frame| |i ok|i ok|url| |].
  - destruct b; simpl; unfold_handlers; cbn;
      destruct (splat w) as [sp|] eqn:Hsp; cbn; congruence.
  - simpl. destruct (session w) as [sid|]; [|exact L].
    unfold session_end. rewrite fold_onEnd.
    destruct b; unfold_handlers; cbn;
      destruct (splat w) as [sp|] eqn:Hsp; cbn;
      destruct (filter (Nat.eqb sid) (endListeners w)); cbn; congruence.
  - simpl. destruct (render_keeps_asset frame w) as (_ & _ & ->). exact L.
  - simpl. unfold_handlers.
    destruct (reticle_visible (reticle w)); [|exact L].
    destruct (splat w) as [sp|] eqn:Hsp; cbn; congruence.
  - simpl. unfold_handlers. break_match; cbn; exact L.
  - simpl. unfold_handlers. break_match; cbn; exact L.
  - destruct b; simpl; try exact L.
    destruct (String.eqb url ""); [exact L|].
    rewrite loadSplatModel_B_splat. discriminate.
  - simpl. unfold_handlers. break_match; cbn; exact L.
  - destruct b; simpl; unfold_handlers; break_match; cbn; exact L.
Qed.

Lemma reachable_splat_loaded : forall b w,
  reachable b w -> splat w <> None.
Proof.
  intros b w R. induction R as [page | w e R IH Hoff].
  - destruct b, page; cbn; discriminate.
  - apply step_splat_loaded. exact IH.
Qed.

(** ** Session end: what is reset *)

(** C3 (amended): in every state the program can reach, a splat is loaded
    and the session-end notification returns normally and leaves the
    stored source null, the requested flag false, the controls enabled and
    the splat visible at position (0,1,0) with scale (1,1,1).  The reticle
    is not reset: its visibility and matrix after the notification are
    what they were before it.  This holds for the 'sessionend' listener and
    for the whole dispatch of a session's end. *)
Theorem sessionend_resets_all_but_reticle :
  forall (b : Build) (sid : SessionId) (w : World),
    reachable b w ->
    exists sp : LumaSplatsThree,
      splat w = Some sp /\
      threw (sessionend b w) = false /\
      hitTestSource (state_of (sessionend b w)) = None /\
      hitTestSourceRequested (state_of (sessionend b w)) = false /\
      enabled (controls (state_of (sessionend b w))) = true /\
      splat (state_of (sessionend b w)) =
        Some (mkSplat (splat_id sp) (source sp) default_position
                (quaternion sp) default_scale true (dispose_defined sp)) /\
      reticle (state_of (sessionend b w)) = reticle w /\
      session_end b sid w = set_session None (state_of (sessionend b w)).
Proof.
  intros b sid w R.
  destruct (splat w) as [sp|] eqn:Hsp;
    [|exfalso; exact (reachable_splat_loaded b w R Hsp)].
  exists sp. split; [reflexivity|].
  pose proof (reachable_unit_scale b w R sp Hsp) as Hscale.
  destruct (sessionend_writes b w sp Hsp) as (Ht & Hsrc & Hreq & Hen & Hs & Hre).
  split; [exact Ht|]. split; [exact Hsrc|]. split; [exact Hreq|].
  split; [exact Hen|].
  split; [rewrite Hs; destruct b; rewrite ?Hscale; reflexivity|].
  split; [exact Hre|].
  rewrite session_end_after_listener.
  - destruct b; simpl; unfold sessionend_000, sessionend_app; simpl;
      rewrite Hsp; reflexivity.
  - destruct b; simpl; unfold sessionend_000, sessionend_app; simpl;
      rewrite Hsp; reflexivity.
  - destruct b; simpl; unfold sessionend_000, sessionend_app; simpl;
      rewrite Hsp; reflexivity.
Qed.

Lemma sessionend_resets_all_but_reticle_witness :
  exists sp : LumaSplatsThree,
    splat before_session_end = Some sp /\
    threw (sessionend AppJsB before_session_end) = false /\
    hitTestSource (state_of (sessionend AppJsB before_session_end)) = None /\
    hitTestSourceRequested (state_of (sessionend AppJsB before_session_end))
      = false /\
    enabled (controls (state_of (sessionend AppJsB before_session_end)))
      = true /\
    splat (state_of (sessionend AppJsB before_session_end))
      = Some (mkSplat (splat_id sp) (source sp) default_position
                (quaternion sp) default_scale true (dispose_defined sp)) /\
    reticle (state_of (sessionend AppJsB before_session_end))
      = reticle before_session_end /\
    session_end AppJsB 0 before_session_end
      = set_session None (state_of (sessionend AppJsB before_session_end)).
Proof.
  apply (sessionend_resets_all_but_reticle AppJsB 0 before_session_end).
  apply reachable_run; [apply reach_init | reflexivity].
Defined.

(** * Further properties *)

(** ** What each callback writes *)

(** [render] writes the reticle, the flag, the chains and the 'end'
    listeners, and nothing else. *)
Lemma render_footprint : forall frame w,
  exists r f c l,
    state_of (render frame w) =
    set_reticle r (set_hitTestSourceRequested f
                     (set_endListeners l (set_chains c w))).
Proof.
  intros frame w. destruct w as [sc re hs rq sp co url ar lo se ch el lg].
  destruct frame as [fr|]; [|do 4 eexists; world_eq].
  unfold render, andThen.
  destruct rq; [|destruct se]; cbn; break_match; cbn;
    do 4 eexists; world_eq.
Qed.

(** [onSelect] writes the splat only. *)
Lemma onSelect_footprint : forall w,
  exists s, state_of (onSelect w) = set_splat s w.
Proof.
  intro w. destruct w as [sc re hs rq sp co url ar lo se ch el lg].
  unfold onSelect. cbn. break_match; cbn; eexists; world_eq.
Qed.

(** The promise callbacks write the stored source and the chains. *)
Lemma settle_footprint : forall b e w,
  match e with EvReferenceSpace _ _ | EvHitTestSource _ _ => True | _ => False end ->
  exists s c, step b e w = set_hitTestSource s (set_chains c w).
Proof.
  intros b e w He. destruct w as [sc re hs rq sp co url ar lo se ch el lg].
  destruct e; try contradiction; cbn; unfold_handlers; cbn;
    break_match; cbn; do 2 eexists; world_eq.
Qed.

(** The load notifications write the loading element. *)
Lemma notify_footprint : forall b e w,
  match e with EvSplatLoad | EvSplatError => True | _ => False end ->
  exists lo, step b e w = set_loadingEl lo w.
Proof.
  intros b e w He. destruct w as [sc re hs rq sp co url ar lo se ch el lg].
  destruct e; try contradiction; destruct b; cbn; unfold_handlers; cbn;
    break_match; cbn; eexists; world_eq.
Qed.

(** [loadSplatModel(url)] writes the scene, the splat, the loading
    element, the log and the current URL. *)
Lemma loadSplatModel_B_footprint : forall url w,
  exists sc sp lo lg,
    loadSplatModel_B url w =
    set_currentSplatURL url
      (set_scene sc (set_splat sp (set_assetLog lg (set_loadingEl lo w)))).
Proof.
  intros url w. destruct w as [sc re hs rq sp co u ar lo se ch el lg].
  unfold loadSplatModel_B. cbn. destruct sp as [old|]; cbn;
    [destruct (dispose_defined old); cbn|]; destruct lo; cbn;
    do 4 eexists; world_eq.
Qed.

Lemma loadFromMenu_footprint : forall b url w,
  exists sc sp lo lg u,
    loadFromMenu b url w =
    set_currentSplatURL u
      (set_scene sc (set_splat sp (set_assetLog lg (set_loadingEl lo w)))).
Proof.
  intros b url w. unfold loadFromMenu.
  destruct (match b with AppJsB => negb (String.eqb url "") | _ => false end)
    eqn:Hload.
  - destruct b; try discriminate. destruct (String.eqb url ""); [discriminate|].
    destruct (loadSplatModel_B_footprint url w) as (sc & sp & lo & lg & ->).
    do 5 eexists; world_eq.
  - assert (match b with
            | AppJsB => if String.eqb url "" then w else loadSplatModel_B url w
            | _ => w
            end = w) as ->
      by (destruct b; try reflexivity; destruct (String.eqb url "");
          [reflexivity | discriminate]).
    destruct w as [sc re hs rq sp co u ar lo se ch el lg].
    do 5 eexists; world_eq.
Qed.

(** 'sessionstart' writes the session, the page marker, the controls and
    the splat. *)
Lemma sessionstart_footprint : forall b sid w,
  exists sp,
    step b (EvSessionStart sid) w =
    set_splat sp (set_controls (mkControls false)
                    (set_ar_active true (set_session (Some sid) w))).
Proof.
  intros b sid w. destruct w as [sc re hs rq sp co u ar lo se ch el lg].
  destruct b; cbn; unfold_handlers; cbn; destruct sp; cbn;
    eexists; world_eq.
Qed.

(** The dispatch of a session's end writes the session, the page marker,
    the controls, the splat, the stored source and the flag. *)
Lemma session_end_footprint : forall b sid w,
  exists sp hs rq,
    session_end b sid w =
    set_hitTestSourceRequested rq
      (set_hitTestSource hs
         (set_splat sp (set_controls (mkControls true)
                          (set_ar_active false (set_session None w))))).
Proof.
  intros b sid w. unfold session_end. rewrite fold_onEnd.
  rewrite endListeners_sessionend. simpl endListeners.
  destruct (filter (Nat.eqb sid) (endListeners w));
    destruct w as [sc re hs rq sp co u ar lo se ch el lg];
    destruct b; cbn; unfold_handlers; cbn; destruct sp; cbn;
    do 3 eexists; world_eq.
Qed.

(** ** Mode and controls *)

Lemma mode_step : forall b e w,
  enabled (controls w) = negb (live w) /\ ar_active w = live w ->
  enabled (controls (step b e w)) = negb (live (step b e w)) /\
  ar_active (step b e w) = live (step b e w).
Proof.
  intros b e w M. unfold live in *.
  destruct e as [sid| |frame| |i ok|i ok|url| |].
  - destruct (sessionstart_footprint b sid w) as (sp & ->). cbn. auto.
  - simpl. destruct (session w) as [sid|] eqn:Hs.
    + destruct (session_end_footprint b sid w) as (sp & hs & rq & ->).
      cbn. auto.
    + rewrite Hs. exact M.
  - simpl. destruct (render_footprint frame w) as (r & f & c & l & ->).
    exact M.
  - simpl. destruct (onSelect_footprint w) as (s & ->). exact M.
  - destruct (settle_footprint b (EvReferenceSpace i ok) w I) as (s & c & ->).
    exact M.
  - destruct (settle_footprint b (EvHitTestSource i ok) w I) as (s & c & ->).
    exact M.
  - simpl. destruct (loadFromMenu_footprint b url w)
      as (sc & sp & lo & lg & u & ->). exact M.
  - destruct (notify_footprint b EvSplatLoad w I) as (lo & ->). exact M.
  - destruct (notify_footprint b EvSplatError w I) as (lo & ->). exact M.
Qed.

(** X1: whatever events arrive, in whatever order, the orbit controls are
    enabled exactly when no session is live, and the page carries the
    'ar-active' marker exactly when one is. *)
Theorem controls_follow_session :
  forall (b : Build) (page : option LoadingEl) (es : list Event),
    enabled (controls (run b es (init b page)))
      = negb (live (run b es (init b page))) /\
    ar_active (run b es (init b page)) = live (run b es (init b page)).
Proof.
  intros b page es.
  assert (enabled (controls (init b page)) = negb (live (init b page)) /\
          ar_active (init b page) = live (init b page)) as M0
    by (destruct b, page; split; reflexivity).
  revert M0. generalize (init b page) as w.
  induction es as [|e es IH]; intros w M.
  - exact M.
  - rewrite run_cons. apply IH. apply mode_step. exact M.
Qed.

(** ** Requests and listeners *)

Lemma listeners_step : forall b e w,
  endListeners w = requests_issued w ->
  endListeners (step b e w) = requests_issued (step b e w).
Proof.
  intros b e w L. unfold requests_issued in *.
  destruct e as [sid| |frame| |i ok|i ok|url| |].
  - destruct (sessionstart_footprint b sid w) as (sp & ->). exact L.
  - simpl. destruct (session w) as [sid|]; [|exact L].
    destruct (session_end_footprint b sid w) as (sp & hs & rq & ->). exact L.
  - destruct frame as [fr|]; [|exact L].
    simpl. unfold render, andThen.
    destruct (hitTestSourceRequested w); [|destruct (session w)]; simpl;
      break_match; simpl; rewrite ?map_app, ?L; reflexivity.
  - simpl. destruct (onSelect_footprint w) as (s & ->). exact L.
  - simpl. unfold referenceSpaceSettled. break_match; simpl;
      rewrite ?set_stage_sessions; exact L.
  - simpl. unfold hitTestSourceSettled, onHitTestSource. break_match; simpl;
      rewrite ?set_stage_sessions; exact L.
  - simpl. destruct (loadFromMenu_footprint b url w)
      as (sc & sp & lo & lg & u & ->). exact L.
  - destruct (notify_footprint b EvSplatLoad w I) as (lo & ->). exact L.
  - destruct (notify_footprint b EvSplatError w I) as (lo & ->). exact L.
Qed.

(** X2: every request comes with its 'end' listener, on the same session
    and in the same order: the sessions that carry a listener of [render]
    are, one for one, the sessions a request chain was issued on. *)
Theorem one_listener_per_request :
  forall (b : Build) (page : option LoadingEl) (es : list Event),
    endListeners (run b es (init b page))
      = requests_issued (run b es (init b page)).
Proof.
  intros b page es.
  assert (endListeners (init b page) = requests_issued (init b page)) as L0
    by (destruct b, page; reflexivity).
  revert L0. generalize (init b page) as w.
  induction es as [|e es IH]; intros w L.
  - exact L.
  - rewrite run_cons. apply IH. apply listeners_step. exact L.
Qed.

(** With no session live, [render] issues nothing. *)
Lemma render_without_session : forall frame w,
  session w = None ->
  session (state_of (render frame w)) = None /\
  chains (state_of (render frame w)) = chains w.
Proof.
  intros [fr|] w Hs; [|auto].
  unfold render, andThen. rewrite Hs.
  destruct (hitTestSourceRequested w); simpl; break_match; simpl; auto.
Qed.

Lemma budget_step : forall b e w,
  request_budget (step b e w)
    <= request_budget w + (if is_session_start e then 1 else 0).
Proof.
  intros b e w. unfold request_budget, live.
  destruct e as [sid| |[fr|]| |i ok|i ok|url| |].
  - destruct (sessionstart_step b sid w) as (-> & -> & ->). simpl.
    destruct (session w), (hitTestSourceRequested w); simpl; lia.
  - simpl. destruct (session w) as [sid|] eqn:Hs; [|rewrite ?Hs; simpl; lia].
    destruct (session_end_footprint b sid w) as (sp & hs & rq & ->).
    unfold requests_issued. cbn. rewrite ?Hs. simpl.
    destruct (hitTestSourceRequested w); simpl; lia.
  - change (step b (EvFrame (Some fr)) w) with (state_of (render (Some fr) w)).
    destruct (session w) as [sid|] eqn:Hs.
    + destruct (xr_frame_requests fr w sid Hs) as (Hs' & Hf' & Hn').
      rewrite Hs', Hf', Hn', length_app.
      destruct (hitTestSourceRequested w); simpl; lia.
    + destruct (render_without_session (Some fr) w Hs) as (Hs' & Hc').
      unfold requests_issued. rewrite Hs', Hc'. simpl. lia.
  - simpl. lia.
  - destruct (quiet_step b EvSelect w eq_refl eq_refl) as (-> & -> & ->).
    simpl. lia.
  - destruct (quiet_step b (EvReferenceSpace i ok) w eq_refl eq_refl)
      as (-> & -> & ->). simpl. lia.
  - destruct (quiet_step b (EvHitTestSource i ok) w eq_refl eq_refl)
      as (-> & -> & ->). simpl. lia.
  - destruct (quiet_step b (EvLoadUrl url) w eq_refl eq_refl)
      as (-> & -> & ->). simpl. lia.
  - destruct (quiet_step b EvSplatLoad w eq_refl eq_refl) as (-> & -> & ->).
    simpl. lia.
  - destruct (quiet_step b EvSplatError w eq_refl eq_refl) as (-> & -> & ->).
    simpl. lia.
Qed.

Lemma budget_run : forall b es w,
  request_budget (run b es w) <= request_budget w + starts_in es.
Proof.
  intros b es. induction es as [|e es IH]; intro w.
  - simpl. unfold starts_in. simpl. lia.
  - rewrite run_cons. pose proof (IH (step b e w)) as H1.
    pose proof (budget_step b e w) as H2.
    unfold starts_in in *. simpl filter. revert H2.
    destruct (is_session_start e); cbn [List.length]; lia.
Qed.

(** X3: over the whole life of the page, the hit-test requests issued
    never outnumber the sessions started, whatever the order of events. *)
Theorem requests_bounded_by_sessions :
  forall (b : Build) (page : option LoadingEl) (es : list Event),
    List.length (requests_issued (run b es (init b page))) <= starts_in es.
Proof.
  intros b page es.
  pose proof (budget_run b es (init b page)) as H.
  assert (request_budget (init b page) = 0) as H0
    by (destruct b, page; reflexivity).
  unfold request_budget in H at 1. lia.
Qed.

(** ** The reticle and the placement *)

Lemma fromArray_id : forall m, fromArray m = m.
Proof. intros []. reflexivity. Qed.

(** X4: in a live session with a stored source, an XR frame sets the
    reticle from the first hit-test result alone.  No result: the reticle
    is hidden and keeps its matrix.  A first result with a pose: the
    reticle is shown with that pose as its matrix.  A first result whose
    pose is null: [render] throws after it has shown the reticle, so the
    reticle is visible with the matrix of an earlier frame. *)
Theorem render_sets_reticle_from_first_hit :
  forall (fr : XRFrame) (w : World) (sid : SessionId) (src : XRHitTestSource),
    session w = Some sid ->
    hitTestSource w = Some src ->
    reticle (state_of (render (Some fr) w)) =
      match getHitTestResults fr src with
      | [] => mkReticle false (reticle_matrix (reticle w))
      | hit :: _ =>
          mkReticle true
            (match getPose hit with
             | Some m => m
             | None => reticle_matrix (reticle w)
             end)
      end /\
    threw (render (Some fr) w) =
      match getHitTestResults fr src with
      | [] => false
      | hit :: _ => match getPose hit with Some _ => false | None => true end
      end.
Proof.
  intros fr w sid src Hs Hsrc. unfold render, andThen. rewrite Hs.
  destruct (hitTestSourceRequested w); simpl; rewrite Hsrc;
    destruct (getHitTestResults fr src) as [|hit rest]; simpl;
    try destruct (getPose hit); simpl; rewrite ?fromArray_id; auto.
Qed.

Lemma render_sets_reticle_from_first_hit_witness :
  reticle (state_of (render
             (Some (frame_with [mkHit None; mkHit (Some Matrix4_identity)]))
             placing_world))
    = mkReticle true pose_1_0_2 /\
  threw (render
           (Some (frame_with [mkHit None; mkHit (Some Matrix4_identity)]))
           placing_world) = true.
Proof.
  apply (render_sets_reticle_from_first_hit
           (frame_with [mkHit None; mkHit (Some Matrix4_identity)])
           placing_world 0 (mkSource 0)); reflexivity.
Defined.

(** X5: a frame that hits a surface, followed by a tap: the splat becomes
    visible at the translation of the first hit's pose, with its
    quaternion and scale as before, and neither callback throws. *)
Theorem select_after_hit_places_at_hit :
  forall (fr : XRFrame) (w : World) (sid : SessionId) (src : XRHitTestSource)
         (sp : LumaSplatsThree) (m : Matrix4) (rest : list XRHitTestResult),
    session w = Some sid ->
    hitTestSource w = Some src ->
    getHitTestResults fr src = mkHit (Some m) :: rest ->
    splat w = Some sp ->
    threw (render (Some fr) w) = false /\
    threw (onSelect (state_of (render (Some fr) w))) = false /\
    splat (state_of (onSelect (state_of (render (Some fr) w)))) =
      Some (mkSplat (splat_id sp) (source sp)
              (mkVector3 (te12 m) (te13 m) (te14 m))
              (quaternion sp) (scale sp) true (dispose_defined sp)).
Proof.
  intros fr w sid src sp m rest Hs Hsrc Hres Hsp.
  unfold render, andThen. rewrite Hs.
  destruct (hitTestSourceRequested w); simpl; rewrite Hsrc, Hres; simpl;
    unfold onSelect; simpl; rewrite Hsp; simpl; auto.
Qed.

Lemma select_after_hit_places_at_hit_witness :
  option_map position
    (splat (state_of (onSelect (state_of (render (Some hit_frame)
                                            before_session_end)))))
    = Some (mkVector3 1 0 2)%float.
Proof.
  destruct (select_after_hit_places_at_hit hit_frame before_session_end 0
              (mkSource 0)
              (splat_set_visible false
                 (splat_set_position (mkVector3 0 1 0)%float
                    (LumaSplatsThree_new 0 DEFAULT_URL)))
              pose_1_0_2 [] eq_refl eq_refl eq_refl eq_refl)
    as (_ & _ & Hsp).
  rewrite Hsp. reflexivity.
Defined.

(** X6: a second tap changes nothing: [onSelect] applied to the state a
    tap leaves returns that state. *)
Theorem onSelect_twice_is_once :
  forall (w : World),
    onSelect (state_of (onSelect w)) = Normal (state_of (onSelect w)).
Proof.
  intro w. destruct w as [sc re hs rq sp co url ar lo se ch el lg].
  unfold onSelect. cbn. destruct (reticle_visible re) eqn:Hv; cbn.
  - destruct sp as [s|]; cbn; rewrite Hv; reflexivity.
  - rewrite Hv. reflexivity.
Qed.

Lemma passive_step : forall b e w,
  is_passive e = true ->
  splat (step b e w) = splat w /\
  scene (step b e w) = scene w /\
  assetLog (step b e w) = assetLog w /\
  currentSplatURL (step b e w) = currentSplatURL w.
Proof.
  intros b e w Hp.
  destruct e as [sid| |frame| |i ok|i ok|url| |]; try discriminate.
  - simpl. destruct (render_footprint frame w) as (r & f & c & l & ->). auto.
  - destruct (settle_footprint b (EvReferenceSpace i ok) w I) as (s & c & ->).
    auto.
  - destruct (settle_footprint b (EvHitTestSource i ok) w I) as (s & c & ->).
    auto.
  - destruct (notify_footprint b EvSplatLoad w I) as (lo & ->). auto.
  - destruct (notify_footprint b EvSplatError w I) as (lo & ->). auto.
Qed.

(** X7: frames, promise settlements and load notifications never move,
    hide, show or replace the splat, and never change the scene's
    children: a placed splat stays where it was placed until a tap, a
    load, or a session start or end. *)
Theorem passive_events_keep_splat :
  forall (b : Build) (es : list Event) (w : World),
    forallb is_passive es = true ->
    splat (run b es w) = splat w /\
    scene (run b es w) = scene w /\
    assetLog (run b es w) = assetLog w.
Proof.
  intros b es. induction es as [|e es IH]; intros w Hp.
  - auto.
  - simpl in Hp. apply andb_prop in Hp as [He Hes]. rewrite run_cons.
    destruct (passive_step b e w He) as (H1 & H2 & H3 & _).
    destruct (IH (step b e w) Hes) as (I1 & I2 & I3).
    rewrite I1, I2, I3. auto.
Qed.

Lemma passive_events_keep_splat_witness :
  option_map position
    (splat (run AppJsB
              [EvFrame (Some no_hit_frame); EvHitTestSource 0 false;
               EvFrame (Some hit_frame); EvSplatLoad; EvFrame None]
              (state_of (onSelect placing_world))))
  = Some (mkVector3 1 0 2)%float.
Proof.
  rewrite (proj1 (passive_events_keep_splat AppJsB
             [EvFrame (Some no_hit_frame); EvHitTestSource 0 false;
              EvFrame (Some hit_frame); EvSplatLoad; EvFrame None]
             (state_of (onSelect placing_world)) eq_refl)).
  reflexivity.
Defined.

Lemma quiet_reticle_step : forall b e w,
  is_xr_frame e = false -> reticle (step b e w) = reticle w.
Proof.
  intros b e w Hx.
  destruct e as [sid| |[fr|]| |i ok|i ok|url| |]; try discriminate.
  - destruct (sessionstart_footprint b sid w) as (sp & ->). reflexivity.
  - simpl. destruct (session w) as [sid|]; [|reflexivity].
    destruct (session_end_footprint b sid w) as (sp & hs & rq & ->).
    reflexivity.
  - reflexivity.
  - simpl. destruct (onSelect_footprint w) as (s & ->). reflexivity.
  - destruct (settle_footprint b (EvReferenceSpace i ok) w I) as (s & c & ->).
    reflexivity.
  - destruct (settle_footprint b (EvHitTestSource i ok) w I) as (s & c & ->).
    reflexivity.
  - simpl. destruct (loadFromMenu_footprint b url w)
      as (sc & sp & lo & lg & u & ->). reflexivity.
  - destruct (notify_footprint b EvSplatLoad w I) as (lo & ->). reflexivity.
  - destruct (notify_footprint b EvSplatError w I) as (lo & ->). reflexivity.
Qed.

(** X8: only an XR frame writes the reticle.  Session starts and ends,
    taps, promise settlements, loads and load notifications leave its
    visibility and matrix as they were, so the reticle of one session is
    still there, unchanged, when the session has ended and when the next
    one starts. *)
Theorem only_xr_frames_write_reticle :
  forall (b : Build) (es : list Event) (w : World),
    existsb is_xr_frame es = false ->
    reticle (run b es w) = reticle w.
Proof.
  intros b es. induction es as [|e es IH]; intros w Hx.
  - reflexivity.
  - simpl in Hx. apply orb_false_elim in Hx as [He Hes]. rewrite run_cons.
    rewrite (IH (step b e w) Hes). apply quiet_reticle_step. exact He.
Qed.

Lemma only_xr_frames_write_reticle_witness :
  reticle (run AppJsB
             [EvSelect; EvSessionEnd; EvLoadUrl "blob:model"; EvFrame None;
              EvSessionStart 1; EvSelect]
             before_session_end)
  = mkReticle true pose_1_0_2.
Proof.
  rewrite (only_xr_frames_write_reticle AppJsB
             [EvSelect; EvSessionEnd; EvLoadUrl "blob:model"; EvFrame None;
              EvSessionStart 1; EvSelect]
             before_session_end eq_refl).
  reflexivity.
Defined.

(** X9: the reticle of an ended session is still armed in the next one.
    If a session ends while the reticle is visible, a tap in the next
    session, before any frame has sampled a surface, makes the splat
    visible at the translation of the old reticle matrix. *)
Theorem tap_in_next_session_uses_old_reticle :
  forall (b : Build) (w : World) (sid sid' : SessionId) (sp : LumaSplatsThree),
    session w = Some sid ->
    reticle_visible (reticle w) = true ->
    splat w = Some sp ->
    option_map (fun s => (visible s, position s))
      (splat (run b [EvSessionEnd; EvSessionStart sid'; EvSelect] w))
    = Some (true, decompose_position (reticle_matrix (reticle w))).
Proof.
  intros b w sid sid' sp Hs Hv Hsp.
  change (run b [EvSessionEnd; EvSessionStart sid'; EvSelect] w)
    with (step b EvSelect (step b (EvSessionStart sid') (step b EvSessionEnd w))).
  assert (step b EvSessionEnd w = session_end b sid w) as ->
    by (simpl; rewrite Hs; reflexivity).
  unfold session_end. rewrite fold_onEnd.
  rewrite endListeners_sessionend. simpl endListeners.
  destruct w as [sc [rv rm] hs rq sp0 co url ar lo se ch el lg].
  simpl in Hs, Hv, Hsp. subst se sp0 rv. simpl endListeners.
  destruct (filter (Nat.eqb sid) el); destruct b; reflexivity.
Qed.

Lemma tap_in_next_session_uses_old_reticle_witness :
  option_map (fun s => (visible s, position s))
    (splat (run AppJsB [EvSessionEnd; EvSessionStart 1; EvSelect]
                before_session_end))
  = Some (true, mkVector3 1 0 2)%float.
Proof.
  apply (tap_in_next_session_uses_old_reticle AppJsB before_session_end 0 1
           (splat_set_visible false
              (splat_set_position (mkVector3 0 1 0)%float
                 (LumaSplatsThree_new 0 DEFAULT_URL))));
    reflexivity.
Defined.

(** ** The splat object and the scene *)

(** Events other than an effective menu load keep the splat's identity and
    source, the scene, the log and the current URL. *)
Lemma identity_step : forall b e w,
  has_menu b && is_menu_load e = false ->
  option_map (fun s => (splat_id s, source s, dispose_defined s))
             (splat (step b e w))
    = option_map (fun s => (splat_id s, source s, dispose_defined s)) (splat w) /\
  scene (step b e w) = scene w /\
  assetLog (step b e w) = assetLog w /\
  currentSplatURL (step b e w) = currentSplatURL w.
Proof.
  intros b e w Hload.
  destruct e as [sid| |frame| |i ok|i ok|url| |].
  - destruct w as [sc re hs rq sp co u ar lo se ch el lg].
    destruct b; cbn; unfold_handlers; cbn; destruct sp; cbn; auto.
  - simpl. destruct (session w) as [sid|]; [|auto].
    unfold session_end. rewrite fold_onEnd.
    rewrite endListeners_sessionend. simpl endListeners.
    destruct (filter (Nat.eqb sid) (endListeners w));
      destruct w as [sc re hs rq sp co u ar lo se ch el lg];
      destruct b; cbn; unfold_handlers; cbn; destruct sp; cbn; auto.
  - simpl. destruct (render_footprint frame w) as (r & f & c & l & ->). auto.
  - destruct w as [sc re hs rq sp co u ar lo se ch el lg].
    simpl. unfold onSelect. cbn. destruct (reticle_visible re); cbn;
      [destruct sp|]; cbn; auto.
  - destruct (settle_footprint b (EvReferenceSpace i ok) w I) as (s & c & ->).
    auto.
  - destruct (settle_footprint b (EvHitTestSource i ok) w I) as (s & c & ->).
    auto.
  - simpl in *. destruct b; simpl in *; auto.
    destruct (String.eqb url ""); [auto | discriminate].
  - destruct (notify_footprint b EvSplatLoad w I) as (lo & ->). auto.
  - destruct (notify_footprint b EvSplatError w I) as (lo & ->). auto.
Qed.

Lemma menu_load_step : forall b e w,
  has_menu b && is_menu_load e = true ->
  exists url, step b e w = loadSplatModel_B url w.
Proof.
  intros b e w Hload. destruct b; try discriminate.
  destruct e; try discriminate. simpl in *.
  destruct (String.eqb url ""); [discriminate|]. eauto.
Qed.

Lemma unmenued_step : forall b e w,
  has_menu b = false ->
  option_map splat_id (splat (step b e w)) = option_map splat_id (splat w) /\
  scene (step b e w) = scene w /\
  assetLog (step b e w) = assetLog w.
Proof.
  intros b e w Hb.
  destruct (identity_step b e w) as (H1 & H2 & H3 & _);
    [rewrite Hb; reflexivity|].
  split; [|auto].
  destruct (splat (step b e w)), (splat w); simpl in *; congruence.
Qed.

(** X10: the revisions without a menu (part_000 and app.js' first
    document) construct one splat object, in [init], and never dispose or
    replace it: after any events the log holds that one construction, the
    scene holds that one splat, and it is the current one. *)
Theorem no_menu_one_splat_forever :
  forall (b : Build) (page : option LoadingEl) (es : list Event),
    has_menu b = false ->
    assetLog (run b es (init b page)) = [Constructed 0] /\
    splats_in (scene (run b es (init b page))) = [0] /\
    option_map splat_id (splat (run b es (init b page))) = Some 0.
Proof.
  intros b page es Hb.
  assert (assetLog (init b page) = [Constructed 0] /\
          splats_in (scene (init b page)) = [0] /\
          option_map splat_id (splat (init b page)) = Some 0) as H0
    by (destruct b, page; repeat split; reflexivity).
  revert H0. generalize (init b page) as w.
  induction es as [|e es IH]; intros w H.
  - exact H.
  - rewrite run_cons. apply IH.
    destruct (unmenued_step b e w Hb) as (-> & -> & ->). exact H.
Qed.

Lemma no_menu_one_splat_forever_witness :
  assetLog (run Part000 (EvLoadUrl "blob:model" :: session_with_hit)
                (init Part000 None)) = [Constructed 0] /\
  splats_in (scene (run Part000 (EvLoadUrl "blob:model" :: session_with_hit)
                        (init Part000 None))) = [0] /\
  option_map splat_id
    (splat (run Part000 (EvLoadUrl "blob:model" :: session_with_hit)
                (init Part000 None))) = Some 0.
Proof.
  apply (no_menu_one_splat_forever Part000 None
           (EvLoadUrl "blob:model" :: session_with_hit)).
  reflexivity.
Defined.

Lemma fixtures_scene_remove : forall l j,
  fixtures (scene_remove (ObjSplat j) l) = fixtures l.
Proof.
  induction l as [|o l IH]; intro j; simpl.
  - reflexivity.
  - destruct o as [| | |i]; simpl; try (rewrite IH; reflexivity).
    destruct (Nat.eqb j i); simpl; [reflexivity | apply IH].
Qed.

Lemma fixtures_scene_add : forall l j,
  fixtures (scene_add (ObjSplat j) l) = fixtures l.
Proof.
  intros l j. unfold scene_add, fixtures. rewrite filter_app. simpl.
  rewrite app_nil_r. apply fixtures_scene_remove.
Qed.

(** The scene after a load: the old splat, if any, is removed, and the new
    one is added last. *)
Lemma loadSplatModel_B_scene : forall url w,
  exists id,
    scene (loadSplatModel_B url w) =
    scene_add (ObjSplat id)
      (match splat w with
       | Some old => scene_remove (ObjSplat (splat_id old)) (scene w)
       | None => scene w
       end).
Proof.
  intros url w. destruct w as [sc re hs rq sp co u ar lo se ch el lg].
  unfold loadSplatModel_B.
  destruct sp as [old|]; [destruct (dispose_defined old) eqn:Hd|];
    destruct lo; eexists; cbn; rewrite ?Hd; reflexivity.
Qed.

Lemma loadSplatModel_B_fixtures : forall url w,
  fixtures (scene (loadSplatModel_B url w)) = fixtures (scene w).
Proof.
  intros url w. destruct (loadSplatModel_B_scene url w) as (id & ->).
  rewrite fixtures_scene_add.
  destruct (splat w); [apply fixtures_scene_remove | reflexivity].
Qed.

(** X11: loading a model replaces the splat and nothing else in the scene:
    after any events, in every revision, the other children of the scene
    are the light, the controller and the reticle, in that order. *)
Theorem scene_keeps_light_controller_reticle :
  forall (b : Build) (page : option LoadingEl) (es : list Event),
    fixtures (scene (run b es (init b page)))
      = [ObjLight; ObjController; ObjReticle].
Proof.
  intros b page es.
  assert (fixtures (scene (init b page)) = [ObjLight; ObjController; ObjReticle])
    as H0 by (destruct b, page; reflexivity).
  revert H0. generalize (init b page) as w.
  induction es as [|e es IH]; intros w H.
  - exact H.
  - rewrite run_cons. apply IH.
    destruct (has_menu b && is_menu_load e) eqn:Hload.
    + destruct (menu_load_step b e w Hload) as (url & ->).
      rewrite loadSplatModel_B_fixtures. exact H.
    + destruct (identity_step b e w Hload) as (_ & -> & _). exact H.
Qed.

Lemma loadSplatModel_B_url : forall url w,
  currentSplatURL (loadSplatModel_B url w) = url.
Proof.
  intros url w.
  destruct (loadSplatModel_B_footprint url w) as (sc & sp & lo & lg & ->).
  reflexivity.
Qed.

(** X12: in app.js' second document [currentSplatURL] always names the
    model on display: after any events it is the source the current splat
    was constructed from. *)
Theorem currentSplatURL_is_source_of_splat :
  forall (page : option LoadingEl) (es : list Event),
    option_map source (splat (run AppJsB es (init AppJsB page)))
      = Some (currentSplatURL (run AppJsB es (init AppJsB page))).
Proof.
  intros page es.
  assert (option_map source (splat (init AppJsB page))
          = Some (currentSplatURL (init AppJsB page))) as H0
    by (destruct page; reflexivity).
  revert H0. generalize (init AppJsB page) as w.
  induction es as [|e es IH]; intros w H.
  - exact H.
  - rewrite run_cons. apply IH.
    destruct (has_menu AppJsB && is_menu_load e) eqn:Hload.
    + destruct (menu_load_step AppJsB e w Hload) as (url & ->).
      rewrite loadSplatModel_B_splat, loadSplatModel_B_url. reflexivity.
    + destruct (identity_step AppJsB e w Hload) as (Hid & _ & _ & ->).
      rewrite <- H.
      destruct (splat (step AppJsB e w)), (splat w); simpl in *; congruence.
Qed.

(** ** The loading element *)

Lemma loadSplatModel_B_loadingEl : forall url w,
  loadingEl (loadSplatModel_B url w) =
  match loadingEl w with
  | Some _ => Some (mkLoadingEl "Loading Model..." "1")
  | None => None
  end.
Proof.
  intros url w. destruct w as [sc re hs rq sp co u ar lo se ch el lg].
  unfold loadSplatModel_B.
  destruct sp as [old|]; [destruct (dispose_defined old) eqn:Hd|];
    destruct lo; cbn; rewrite ?Hd; reflexivity.
Qed.

(** X13: on a page that has the loading element, [loadSplatModel(url)]
    shows it with the text 'Loading Model...'.  A load notification after
    that hides it and keeps the text; an error notification after that
    replaces the text by 'Error loading model' and leaves it shown.  An
    error that arrives after the load notification changes the text of an
    element that stays hidden. *)
Theorem loading_element_after_load :
  forall (url : string) (w : World) (el : LoadingEl),
    loadingEl w = Some el ->
    loadingEl (loadSplatModel_B url w)
      = Some (mkLoadingEl "Loading Model..." "1") /\
    loadingEl (onLoad (loadSplatModel_B url w))
      = Some (mkLoadingEl "Loading Model..." "0") /\
    loadingEl (onError (loadSplatModel_B url w))
      = Some (mkLoadingEl "Error loading model" "1") /\
    loadingEl (onError (onLoad (loadSplatModel_B url w)))
      = Some (mkLoadingEl "Error loading model" "0").
Proof.
  intros url w el Hel.
  pose proof (loadSplatModel_B_loadingEl url w) as H. rewrite Hel in H.
  unfold onError, onLoad. rewrite H. simpl. auto.
Qed.

Lemma loading_element_after_load_witness :
  loadingEl (onError (loadSplatModel_B "blob:model"
                        (onLoad (init AppJsB (Some shown_loading)))))
  = Some (mkLoadingEl "Error loading model" "1").
Proof.
  apply (loading_element_after_load "blob:model"
           (onLoad (init AppJsB (Some shown_loading)))
           (mkLoadingEl "Loading Model..." "0")).
  reflexivity.
Defined.

(** ** The menu *)

Lemma loadSplatModel_B_ar_state : forall url w,
  ar_state (loadSplatModel_B url w) = ar_state w.
Proof.
  intros url w.
  destruct (loadSplatModel_B_footprint url w) as (sc & sp & lo & lg & ->).
  reflexivity.
Qed.

(** X14: the menu never disturbs the AR machinery: opening or closing it,
    and loading a model from a URL or a file, leave the stored source, the
    requested flag, the live session, the reticle, the controls, the
    pending chains, the 'end' listeners and the page's AR marker as they
    were, also in the middle of a session. *)
Theorem menu_keeps_ar_state :
  forall (trim : string -> string) (e : MenuEvent) (p : Page),
    ar_state (page_world (menu_step trim e p)) = ar_state (page_world p).
Proof.
  intros trim e p. destruct e as [| |value|[objectUrl|]]; simpl;
    try reflexivity.
  - destruct (String.eqb (trim value) ""); simpl;
      [reflexivity | apply loadSplatModel_B_ar_state].
  - apply loadSplatModel_B_ar_state.
Qed.

Lemma loadSplatModel_B_log_grows : forall url w,
  List.length (assetLog w) < List.length (assetLog (loadSplatModel_B url w)).
Proof.
  intros url w. destruct w as [sc re hs rq sp co u ar lo se ch el lg].
  unfold loadSplatModel_B.
  destruct sp as [old|]; [destruct (dispose_defined old) eqn:Hd|];
    destruct lo; cbn; rewrite ?Hd; cbn; rewrite !length_app; simpl; lia.
Qed.

(** X15: the 'load URL' button acts exactly when the trimmed input is not
    empty.  With an empty or blank input the click changes nothing: no
    model is loaded and the menu stays as it is.  Otherwise the model at
    the trimmed URL is loaded and the menu is closed. *)
Theorem load_button_acts_iff_input_not_blank :
  forall (trim : string -> string) (value : string) (p : Page),
    (menu_step trim (MenuLoadUrl value) p = p <-> trim value = ""%string) /\
    (menu_step trim (MenuLoadUrl value) p = p \/
     menu_step trim (MenuLoadUrl value) p
       = mkPage (loadSplatModel_B (trim value) (page_world p)) "none").
Proof.
  intros trim value p. simpl.
  destruct (String.eqb (trim value) "") eqn:Hb.
  - apply String.eqb_eq in Hb. split; [split; auto | left; reflexivity].
  - split; [|right; reflexivity]. split.
    + intro H. exfalso.
      pose proof (loadSplatModel_B_log_grows (trim value) (page_world p)) as Hg.
      rewrite <- H in Hg at 1. simpl in Hg. lia.
    + intro H. rewrite H in Hb. discriminate.
Qed.

(** ** Outside a session *)

Lemma session_end_shows_splat : forall b sid w sp,
  splat (session_end b sid w) = Some sp ->
  visible sp = true /\ position sp = default_position.
Proof.
  intros b sid w sp. unfold session_end. rewrite fold_onEnd.
  rewrite endListeners_sessionend. simpl endListeners.
  destruct (filter (Nat.eqb sid) (endListeners w));
    destruct w as [sc re hs rq sp0 co u ar lo se ch el lg];
    destruct b; cbn; destruct sp0; cbn; intros [= <-]; auto.
Qed.

Lemma idle_splat_step : forall b e w,
  offered w e = true ->
  (session w = None ->
   forall sp, splat w = Some sp ->
     visible sp = true /\ position sp = default_position) ->
  session (step b e w) = None ->
  forall sp, splat (step b e w) = Some sp ->
    visible sp = true /\ position sp = default_position.
Proof.
  intros b e w Hoff K.
  destruct e as [sid| |frame| |i ok|i ok|url| |].
  - destruct (sessionstart_footprint b sid w) as (s & ->). discriminate.
  - revert Hoff. simpl. destruct (session w) as [sid|] eqn:Hs;
      [|discriminate].
    intros _ _ sp. apply session_end_shows_splat.
  - simpl. destruct (render_footprint frame w) as (r & f & c & l & ->).
    exact K.
  - revert Hoff. simpl.
    destruct (onSelect_footprint w) as (s & ->). simpl.
    destruct (session w); discriminate.
  - destruct (settle_footprint b (EvReferenceSpace i ok) w I) as (s & c & ->).
    exact K.
  - destruct (settle_footprint b (EvHitTestSource i ok) w I) as (s & c & ->).
    exact K.
  - destruct (has_menu b && is_menu_load (EvLoadUrl url)) eqn:Hload.
    + destruct (menu_load_step b (EvLoadUrl url) w Hload) as (u & ->).
      intros _ sp. rewrite loadSplatModel_B_splat. intros [= <-]. auto.
    + assert (step b (EvLoadUrl url) w = w) as ->; [|exact K].
      destruct b; simpl in *; try reflexivity.
      destruct (String.eqb url ""); [reflexivity | discriminate].
  - destruct (notify_footprint b EvSplatLoad w I) as (lo & ->). exact K.
  - destruct (notify_footprint b EvSplatError w I) as (lo & ->). exact K.
Qed.

Lemma reachable_idle_splat : forall b w,
  reachable b w ->
  session w = None ->
  forall sp, splat w = Some sp ->
    visible sp = true /\ position sp = default_position.
Proof.
  intros b w R. induction R as [page | w e R IH Hoff].
  - intros _ sp. destruct b, page; cbn; intros [= <-]; auto.
  - apply idle_splat_step; assumption.
Qed.

(** X16: whenever no session is live, the page is in its inspection view:
    a splat is loaded, it is visible at position (0,1,0) with scale
    (1,1,1), and the requested flag is clear.  This holds in every state
    the program can reach. *)
Theorem inspection_view_outside_session :
  forall (b : Build) (w : World),
    reachable b w ->
    session w = None ->
    hitTestSourceRequested w = false /\
    option_map (fun sp => (visible sp, position sp, scale sp)) (splat w)
      = Some (true, default_position, default_scale).
Proof.
  intros b w R Hs. split.
  - apply (reachable_idle_flag_clear b w R Hs).
  - destruct (splat w) as [sp|] eqn:Hsp;
      [|exfalso; exact (reachable_splat_loaded b w R Hsp)].
    destruct (reachable_idle_splat b w R Hs sp Hsp) as (Hv & Hp).
    pose proof (reachable_unit_scale b w R sp Hsp) as Hk.
    simpl. rewrite Hv, Hp, Hk. reflexivity.
Qed.

Lemma inspection_view_outside_session_witness :
  hitTestSourceRequested
    (run AppJsB (session_until_hit ++ [EvSelect; EvSessionEnd])
         (init AppJsB None)) = false /\
  option_map (fun sp => (visible sp, position sp, scale sp))
    (splat (run AppJsB (session_until_hit ++ [EvSelect; EvSessionEnd])
                (init AppJsB None)))
    = Some (true, default_position, default_scale).
Proof.
  apply (inspection_view_outside_session AppJsB
           (run AppJsB (session_until_hit ++ [EvSelect; EvSessionEnd])
                (init AppJsB None))).
  - apply reachable_run; [apply reach_init | reflexivity].
  - reflexivity.
Defined.
